(* ===== verification/_CoqProject ===== *)
-Q . S2P
Prelude.v
PyStr.v
World.v
Capture.v
Scrub.v
Batch.v
Gui.v
