(* ===== verification/Prelude.v ===== *)
(** * A verification development of CerealNose/audio-scrubber

    The repository is two Python scripts that "launder" compressed audio:
    each input file is decoded by an [ffmpeg] child process, re-recorded
    from a loopback capture device, passed through the EnCodec neural
    codec (encode, then decode) and written as [X_clean.wav].

    - [src/audio_scrubber.py] is the command-line driver: [rerecord]
      (lines 20-42), [neural_scrub] (lines 45-72) and the batch loop of
      [__main__] (lines 75-106).
    - [src/audio_scrubber_gui.py] is a Tk front end with its own copies
      of [rerecord] (16-41) and [neural_scrub] (43-62) and the
      [AudioScrubberApp] class: the file list ([add_files],
      [clear_files]), the [processing] flag ([start_processing]) and the
      batch loop [process_loop] run on a worker thread.

    ** How the program is modelled

    Python code is modelled as functions in a state and exception monad
    [PyM S A := S -> outcome A * S] (this file).  An [outcome] is a
    return value, a raised Python exception ([exn]), or [Hang], the
    result of a [while] loop that ran out of fuel.  [try/except
    Exception] is [try_except]: it catches every exception except
    [SystemExit], which in Python is not an [Exception].

    Files of the development, in dependency order:
    - [Prelude.v] (this file): the monad, its notation in [py_scope],
      the fuelled [while_] loop, [for_range] and [for_each]; lemmas on
      running them ([while_hang]: a loop whose condition stays true
      under an invariant runs out of every fuel; [while_terminates]: a
      loop whose body decreases a measure finishes), the [confined]
      predicate (an effect relation closed under the combinators) and
      [never_ok]; the [py] hint databases.
    - [PyStr.v] (Module [PyStr]): the Python string operations the
      scripts use on paths ([str.lower], [str.endswith], [str.replace],
      [str.rsplit('.', 1)[0]], [os.path.basename]) and both scripts'
      path derivations (audio_scrubber.py 87-92, gui 146-147).
    - [World.v] (Module [World]): the state: the file system as a stdpp
      [gmap string content], the device clock in frames at 44.1 kHz, the
      count of model loads, the printed log; [os.path.exists],
      [os.remove], [os.rename] (POSIX), [soundfile]'s [SoundFile(...,
      "w")], [f.write], [sf.write]; the collaborators the code only
      calls ([ffmpeg]'s decoding, the capture device, the resampler, the
      codec) as the class [Externals]; [untouched_except o], the
      relation "only file [o] changed, no model loaded".
    - [Capture.v] (Module [Capture]): [rerecord] (audio_scrubber.py
      20-42, gui 16-41): the [ffmpeg] player with its never-read stdout
      pipe ([popen_player], [player_alive]), the stream ([stream_open],
      [stream_read]), the loop [capture_while], the drain, the fallback
      [ffmpeg_convert], composed as [rerecord_core].
    - [Scrub.v] (Module [Scrub]): [neural_scrub] (audio_scrubber.py
      45-72, gui 43-62): the model load, [set_target_bandwidth], the
      channel layout ([channels_first], [transpose]), [convert_audio],
      and the pure [scrub_wav] the handler refines.
    - [Batch.v] (Module [Batch]): the command-line [__main__]
      (audio_scrubber.py 75-106): [glob], the job [cli_job] with its
      [scrub_or_promote] branch, [cli_main] and the exit status.
    - [Gui.v] (Module [Gui]): [AudioScrubberApp] (gui 66-163).  Its
      state [app] holds the Python heap of list objects ([heap], with
      [files] the object [self.files] names), the list box, the
      [processing] flag, the Start button, the device and bitrate
      fields, the progress value (a [Q]), the dialogs shown, the worker
      thread ([Idle], [Spawned] before its first line, [Counted] after
      line 142, [Looping] over a list object) and the [world].
      [add_files], [clear_files], [start_processing] (only while the
      button is enabled) and [set_vars] are the user's actions;
      [worker_step] is one step of [process_loop], with [gui_job]
      the GUI's [try] body and handler, [float(bitrate)] as [py_float]
      (Python's grammar, the exact value as a [Q]) and its comparison
      with the model's bandwidths as [float_bandwidth] (round to
      nearest even double); [gui_step] interleaves them.  The worker's
      steps are line 142 ([total = len(self.files)]), line 143
      ([enumerate(self.files)]) and one loop iteration each, so a
      Clear or Add between any two of them is a reachable state.

    Shared reasoning lives in helper lemmas that the theorems below
    apply: [Capture.rerecord_core_run] (a whole [rerecord] on an input
    that fits in the pipe), [Scrub.neural_scrub_core_run] and
    [Scrub.scrub_body_spec] (the handler's run), [Gui.reachable_inv]
    (the invariant [app_inv] of every reachable GUI state, by induction
    on [rtc gui_step]).

    ** What is proved
    - Capture: a finished [rerecord] always leaves [ffmpeg]'s direct
      conversion in the output (the drain's [read] raises [TypeError],
      so the loopback capture is always replaced); it never returns when
      the decoded input exceeds the 64 KiB pipe; it finishes otherwise;
      the loop writes the device's blocks in read order.
    - PyStr: the derived paths for [base.mp3], the rewriting of every
      [".mp3"] of a path, the collision of [SONG.MP3] with itself, the
      GUI's stem before the last dot of the whole path.
    - Scrub: the handler refines [scrub_wav] and loads the model on
      every call; any bandwidth but 3, 6, 12, 24 kbps raises; the two
      transposes undo each other.
    - Batch: the end-to-end contract of one job (success, promotion,
      stale final file), the zero-bitrate branch, the abort of the whole
      batch on an undecodable file, the exit status 1 with no files.
    - Gui: the invariant of reachable states (no duplicate files, list
      box mirrors the list, Start enabled iff idle, one worker); the GUI
      job's contract (no promotion on failure, bitrate 0 cannot disable
      the scrub); and, from the aliasing of [self.files] with the loop's
      iterator, that Clear does not stop a batch, that files added
      during a batch join it, that the progress reaches 200%, and that
      [(i / total)] can raise [ZeroDivisionError].

    ** Bounds and fuel
    The only unbounded loop of the code is [while player.poll() is
    None]; it takes [fuel] iterations at most and yields [Hang] beyond.
    [rerecord_terminates] shows a fuel larger than [ffmpeg]'s decoding
    time (in frames) suffices, since every iteration advances the clock
    by 1024 frames; [rerecord_hangs_on_long_input] shows no fuel
    suffices once the output exceeds the pipe.  Byte counts and times
    are [N]; the pipe holds 65536 bytes (the Linux default: the code
    only asks for a pipe), 8 bytes per stereo float frame.
    The theorems on a whole job (C12, C15, C20) assume
    [Capture.capture_ends]: the decoded input fits in the pipe and the
    fuel exceeds [ffmpeg]'s decoding time, or the device does not open
    (then the job returns for an input of any length).  With a fuel
    beyond [ffmpeg]'s decoding time, these two cases and C2 (a longer
    input on a working device hangs) cover every input.  The GUI's concrete traces use fuel 1000, more than
    the 800 frames [ffmpeg] takes on the 100-frame demonstration input.

    ** Not modelled
    The Tk widgets ([setup_ui], [update_status], the progress bar and
    message boxes) are presentation; [sd.query_devices] only fills a
    combo box.  The libraries are the [Externals] class: [ffmpeg]'s
    decoding, the device's samples, [julius] resampling and the EnCodec
    network are opaque functions; sample values are integers, the
    quantisation of 16/24-bit and float formats is not modelled.  The
    file system has no directories.

    The GUI runs each file's job as one step: both fields are read at
    its start, while the code reads the bitrate after [rerecord].
    Strings are byte strings: [float] reads no non-ASCII digits or
    spaces.
*)

From Stdlib Require Import String ZArith Lia.
From stdpp Require Import base list.

(** ** Python exceptions *)

(** The exceptions the two scripts can raise or catch.  [SystemExit]
    is raised by [sys.exit]; it is a [BaseException], not an
    [Exception], so [except Exception] lets it through. *)
Inductive exn :=
  | TypeError (msg : string)
  | ValueError (msg : string)
  | AssertionError (msg : string)
  | FileNotFoundError (path : string)
  | PortAudioError (device : string)
  | LibsndfileError (path : string)
  | CalledProcessError (returncode : Z)
  | ZeroDivisionError (msg : string)
  | SystemExit (code : Z).

(** [isinstance(e, Exception)]. *)
Definition is_Exception (e : exn) : bool :=
  match e with
  | SystemExit _ => false
  | _ => true
  end.

(** [str(e)], the message a handler prints. *)
Definition exn_message (e : exn) : string :=
  match e with
  | TypeError m | ValueError m | AssertionError m | ZeroDivisionError m => m
  | FileNotFoundError p => "No such file or directory: " ++ p
  | PortAudioError d => "Error querying device " ++ d
  | LibsndfileError p => "Error opening " ++ p ++ ": Format not recognised."
  | CalledProcessError _ => "Command 'ffmpeg' returned non-zero exit status 1."
  | SystemExit _ => ""
  end%string.

(** The outcome of running a piece of Python code. *)
Inductive outcome (A : Type) :=
  | Ok (a : A)
  | Raise (e : exn)
  | Hang.
Arguments Ok {A} a.
Arguments Raise {A} e.
Arguments Hang {A}.

(** ** The state and exception monad *)

Definition PyM (St A : Type) : Type := St -> outcome A * St.

Section Monad.
Context {St : Type}.

Definition ret {A} (a : A) : PyM St A := fun s => (Ok a, s).

Definition bind {A B} (m : PyM St A) (k : A -> PyM St B) : PyM St B :=
  fun s =>
    match m s with
    | (Ok a, s') => k a s'
    | (Raise e, s') => (Raise e, s')
    | (Hang, s') => (Hang, s')
    end.

Definition raise {A} (e : exn) : PyM St A := fun s => (Raise e, s).

Definition get : PyM St St := fun s => (Ok s, s).

Definition modify (f : St -> St) : PyM St unit := fun s => (Ok tt, f s).

(** Run a pure computation that may raise. *)
Definition lift_outcome {A} (r : outcome A) : PyM St A := fun s => (r, s).

(** [try: m except Exception as e: h e].  The state changes [m] made
    before raising are kept, as in Python. *)
Definition try_except {A} (m : PyM St A) (h : exn -> PyM St A) : PyM St A :=
  fun s =>
    match m s with
    | (Raise e, s') => if is_Exception e then h e s' else (Raise e, s')
    | r => r
    end.
End Monad.

Declare Scope py_scope.
Delimit Scope py_scope with py.
Notation "x <- m ;; k" := (bind m (fun x => k))
  (at level 100, m at next level, right associativity) : py_scope.
Notation "m ;; k" := (bind m (fun _ => k))
  (at level 100, right associativity) : py_scope.
Open Scope py_scope.

(** String concatenation, Python's [+] on [str]. *)
Notation "a ^^ b" := (String.append a b)
  (at level 60, right associativity) : string_scope.

(** ** Loops *)

Section Loops.
Context {St : Type}.

(** [while cond: body], with [fuel] iterations at most; [Hang] when
    the fuel runs out. *)
Fixpoint while_ (fuel : nat) (cond : PyM St bool) (body : PyM St unit)
    : PyM St unit :=
  match fuel with
  | O => fun s => (Hang, s)
  | S n =>
      b <- cond ;;
      if b then (body ;; while_ n cond body) else ret tt
  end.

(** [for _ in range(n): body]. *)
Fixpoint for_range (n : nat) (body : PyM St unit) : PyM St unit :=
  match n with
  | O => ret tt
  | S k => body ;; for_range k body
  end.

(** [for x in xs: body x]. *)
Fixpoint for_each {A} (xs : list A) (body : A -> PyM St unit) : PyM St unit :=
  match xs with
  | [] => ret tt
  | x :: rest => body x ;; for_each rest body
  end.
End Loops.

(** ** Running the monad *)

(** An [outcome] that is not [Hang]: the code returned or raised. *)
Definition finished {A} (r : outcome A) : bool :=
  match r with Hang => false | _ => true end.

Section MonadLemmas.
Context {St : Type}.

Lemma bind_ok {A B} (m : PyM St A) (k : A -> PyM St B) s a s' :
  m s = (Ok a, s') -> bind m k s = k a s'.
Proof. unfold bind. by intros ->. Qed.

Lemma bind_raise {A B} (m : PyM St A) (k : A -> PyM St B) s e s' :
  m s = (Raise e, s') -> bind m k s = (Raise e, s').
Proof. unfold bind. by intros ->. Qed.

Lemma bind_hang {A B} (m : PyM St A) (k : A -> PyM St B) s s' :
  m s = (Hang, s') -> bind m k s = (Hang, s').
Proof. unfold bind. by intros ->. Qed.

Lemma bind_ret {A B} (a : A) (k : A -> PyM St B) s :
  bind (ret a) k s = k a s.
Proof. reflexivity. Qed.

Lemma try_except_ok {A} (m : PyM St A) h s a s' :
  m s = (Ok a, s') -> try_except m h s = (Ok a, s').
Proof. unfold try_except. by intros ->. Qed.

Lemma try_except_catch {A} (m : PyM St A) h s e s' :
  m s = (Raise e, s') -> is_Exception e = true -> try_except m h s = h e s'.
Proof. unfold try_except. intros -> ->. done. Qed.

(** A loop that finished with [n] iterations of fuel finishes in the
    same way with any larger fuel. *)
Lemma while_fuel_mono n m (c : PyM St bool) (b : PyM St unit) s r s' :
  while_ n c b s = (r, s') -> finished r = true -> n <= m ->
  while_ m c b s = (r, s').
Proof.
  revert m s. induction n as [|n IH]; intros m s Hrun Hfin Hle;
    [by inversion Hrun; subst|].
  destruct m as [|m]; [lia|]. simpl in *. unfold bind in *.
  destruct (c s) as [[[|]|e|] s1]; try done.
  destruct (b s1) as [[u|e|] s2]; try done.
  apply IH; auto with lia.
Qed.

Lemma for_each_app {A} (xs ys : list A) (body : A -> PyM St unit) s :
  for_each (xs ++ ys) body s = bind (for_each xs body) (fun _ => for_each ys body) s.
Proof.
  revert s. induction xs as [|x xs IH]; intros s; [done|].
  simpl. unfold bind. destruct (body x s) as [[u|e|] s1]; [|done|done].
  apply IH.
Qed.
End MonadLemmas.

Section Finishing.
Context {St : Type}.

Lemma fst_bind_hang {A B} (m : PyM St A) (k : A -> PyM St B) s :
  fst (m s) = Hang -> fst (bind m k s) = Hang.
Proof. unfold bind. destruct (m s) as [[]]; simpl; congruence. Qed.

Lemma fst_try_except_hang {A} (m : PyM St A) h s :
  fst (m s) = Hang -> fst (try_except m h s) = Hang.
Proof. unfold try_except. destruct (m s) as [[]]; simpl; congruence. Qed.

Lemma finished_bind {A B} (m : PyM St A) (k : A -> PyM St B) s :
  finished (fst (m s)) = true ->
  (forall a s', m s = (Ok a, s') -> finished (fst (k a s')) = true) ->
  finished (fst (bind m k s)) = true.
Proof. unfold bind. destruct (m s) as [[a|e|] s']; simpl; eauto. Qed.

Lemma finished_try_except {A} (m : PyM St A) h s :
  finished (fst (m s)) = true ->
  (forall e s', m s = (Raise e, s') -> finished (fst (h e s')) = true) ->
  finished (fst (try_except m h s)) = true.
Proof.
  unfold try_except. destruct (m s) as [[a|e|] s']; simpl; [done| |done].
  destruct (is_Exception e); eauto.
Qed.
End Finishing.

(** ** Loops that never stop, loops that stop *)

Section LoopLemmas.
Context {St : Type}.

(** Under an invariant [P] where the condition holds and the body
    returns, [while] runs out of every fuel. *)
Lemma while_hang (P : St -> Prop) (c : PyM St bool) (b : PyM St unit) :
  (forall s, P s -> exists s1, c s = (Ok true, s1) /\ P s1) ->
  (forall s, P s -> exists s2, b s = (Ok tt, s2) /\ P s2) ->
  forall n s, P s -> fst (while_ n c b s) = Hang.
Proof.
  intros Hc Hb n. induction n as [|n IH]; intros s Hs; [done|].
  destruct (Hc s Hs) as (s1 & Hc1 & Hs1).
  destruct (Hb s1 Hs1) as (s2 & Hb2 & Hs2).
  simpl. rewrite (bind_ok _ _ _ _ _ Hc1). simpl.
  rewrite (bind_ok _ _ _ _ _ Hb2). by apply IH.
Qed.

(** A [while] whose condition only reads the state and whose body,
    when it returns, decreases the measure [mu] finishes within
    [mu s + 1] iterations. *)
Lemma while_terminates (mu : St -> nat) (c : PyM St bool) (b : PyM St unit) :
  (forall s, exists v, c s = (Ok v, s)) ->
  (forall s, c s = (Ok true, s) ->
     match b s with
     | (Ok _, s') => mu s' < mu s
     | (Raise _, _) => True
     | (Hang, _) => False
     end) ->
  forall n s, mu s < n -> finished (fst (while_ n c b s)) = true.
Proof.
  intros Hc Hb n. induction n as [|n IH]; intros s Hlt; [lia|].
  destruct (Hc s) as [[|] Hcs]; simpl; rewrite (bind_ok _ _ _ _ _ Hcs); [|done].
  specialize (Hb s Hcs). unfold bind.
  destruct (b s) as [[u|e|] s']; [|done|done]. apply IH. lia.
Qed.
End LoopLemmas.

(** ** Confined effects

    [confined R m]: every run of [m] relates its start and end states by
    [R] and raises only exceptions that [except Exception] catches.  It
    is closed under the monad's combinators, so a property such as
    "only the output file changed" is proved once per primitive. *)

Definition no_exit {A} (r : outcome A) : Prop :=
  forall e, r = Raise e -> is_Exception e = true.

Section Confined.
Context {St : Type} (R : St -> St -> Prop) `{!PreOrder R}.

Definition confined {A} (m : PyM St A) : Prop :=
  forall s r s', m s = (r, s') -> R s s' /\ no_exit r.

Lemma confined_ret {A} (a : A) : confined (ret a).
Proof. intros s r s' [= <- <-]. split; [reflexivity|by intros ? ?]. Qed.

Lemma confined_pure {A} (f : St -> outcome A) :
  (forall s, no_exit (f s)) -> confined (fun s => (f s, s)).
Proof. intros Hf s r s' [= <- <-]. split; [reflexivity|apply Hf]. Qed.

Lemma confined_bind {A B} (m : PyM St A) (k : A -> PyM St B) :
  confined m -> (forall a, confined (k a)) -> confined (bind m k).
Proof.
  intros Hm Hk s r s'. unfold bind.
  destruct (m s) as [[a|e|] s1] eqn:E; intros Hrun.
  - destruct (Hm _ _ _ E) as [R1 _]. destruct (Hk a _ _ _ Hrun) as [R2 Hr].
    split; [by etrans|done].
  - injection Hrun as <- <-. destruct (Hm _ _ _ E) as [R1 Hx].
    split; [done|]. intros e' [= <-]. by apply Hx.
  - injection Hrun as <- <-. split; [apply (Hm _ _ _ E)|by intros ? ?].
Qed.

Lemma confined_while n (c : PyM St bool) (b : PyM St unit) :
  confined c -> confined b -> confined (while_ n c b).
Proof.
  intros Hc Hb. induction n as [|n IH]; simpl.
  - intros s r s' [= <- <-]. split; [reflexivity|by intros ? ?].
  - apply confined_bind; [done|]. intros [|];
      [apply confined_bind; [done|intros _; exact IH]|apply confined_ret].
Qed.

Lemma confined_for_range n (b : PyM St unit) :
  confined b -> confined (for_range n b).
Proof.
  intros Hb. induction n as [|n IH]; simpl;
    [apply confined_ret|by apply confined_bind].
Qed.

Lemma confined_for_each {A} (xs : list A) (b : A -> PyM St unit) :
  (forall x, confined (b x)) -> confined (for_each xs b).
Proof.
  intros Hb. induction xs as [|x xs IH]; simpl;
    [apply confined_ret|by apply confined_bind].
Qed.
End Confined.

(** [never_ok m]: no run of [m] returns normally. *)
Definition never_ok {St A} (m : PyM St A) : Prop :=
  forall s a s', m s <> (Ok a, s').

Lemma never_ok_bind {St A B} (m : PyM St A) (k : A -> PyM St B) :
  (forall a, never_ok (k a)) -> never_ok (bind m k).
Proof.
  intros Hk s b s'. unfold bind.
  destruct (m s) as [[a|e|] s1]; [apply Hk|done|done].
Qed.

(** ** Automation *)

Create HintDb py discriminated.
Create Rewrite HintDb py_rw.
#[export] Hint Rewrite @bind_ret : py_rw.

(** Step through a monadic computation whose first action has a known
    run, recorded as a hypothesis [H : m s = (r, s')]. *)
Ltac py_step H :=
  first [ rewrite (bind_ok _ _ _ _ _ H)
        | rewrite (bind_raise _ _ _ _ _ H)
        | rewrite (bind_hang _ _ _ _ H)
        | rewrite (try_except_ok _ _ _ _ _ H) ].

(** Unfold the monad's plumbing on a goal built from concrete steps. *)
Ltac py_simpl := cbn [bind ret raise get modify try_except is_Exception] in *.
