(* ===== verification/PyStr.v ===== *)
(** * Python string operations and the derived file paths

    The string methods the two scripts apply to file names, on ASCII
    strings, and the two path derivations built from them:
    - the command-line script keeps a file when
      [mp3.lower().endswith(".mp3")] and derives its temporary and final
      paths with [mp3.replace(".mp3", ...)]
      ([src/audio_scrubber.py], lines 87-92);
    - the GUI derives them with [f_path.rsplit('.', 1)[0] + ...]
      ([src/audio_scrubber_gui.py], lines 146-147) and shows
      [os.path.basename(f)] in its list box (line 120).
    [str.replace] replaces every non-overlapping occurrence from left to
    right, so the command-line paths change every [".mp3"] of the path,
    and the match is case-sensitive while the filter is not. *)

From Stdlib Require Import String Ascii Lia.
From stdpp Require Import base list.
From S2P Require Import Prelude.

Local Open Scope string_scope.

Module PyStr.

(** ** The string methods *)

(** [str.lower()] on one ASCII character: ['A'..'Z'] to ['a'..'z']. *)
Definition ascii_lower (c : ascii) : ascii :=
  let n := nat_of_ascii c in
  if (65 <=? n)%nat && (n <=? 90)%nat then ascii_of_nat (n + 32) else c.

(** [s.lower()]. *)
Fixpoint lower (s : string) : string :=
  match s with
  | EmptyString => EmptyString
  | String c r => String (ascii_lower c) (lower r)
  end.

(** [s.endswith(suffix)]: some suffix of [s] is [suffix]. *)
Fixpoint endswith (s suffix : string) : bool :=
  String.eqb s suffix ||
  match s with
  | EmptyString => false
  | String _ r => endswith r suffix
  end.

(** The scan of [s.replace(old, new)] for a non-empty [old]: [skip]
    characters of the previous match are still to be dropped. *)
Fixpoint replace_from (old new : string) (skip : nat) (s : string) : string :=
  match s with
  | EmptyString => EmptyString
  | String c rest =>
      match skip with
      | S k => replace_from old new k rest
      | O =>
          if String.prefix old s
          then new ^^ replace_from old new (String.length old - 1) rest
          else String c (replace_from old new 0 rest)
      end
  end.

(** [s.replace("", new)] inserts [new] around every character. *)
Fixpoint interleave (new s : string) : string :=
  match s with
  | EmptyString => new
  | String c r => new ^^ String c (interleave new r)
  end.

(** [s.replace(old, new)]. *)
Definition replace (old new s : string) : string :=
  if String.eqb old "" then interleave new s else replace_from old new 0 s.

(** The part of [s] before the last [sep], when [sep] occurs in [s]. *)
Fixpoint before_last (sep : ascii) (s : string) : option string :=
  match s with
  | EmptyString => None
  | String c r =>
      match before_last sep r with
      | Some h => Some (String c h)
      | None => if ascii_dec c sep then Some EmptyString else None
      end
  end.

(** [s.rsplit(sep, 1)[0]]: the part before the last [sep], or [s]. *)
Definition rsplit1_head (sep : ascii) (s : string) : string :=
  match before_last sep s with
  | Some h => h
  | None => s
  end.

(** [os.path.basename(p)], i.e. [p[p.rfind('/') + 1:]]. *)
Fixpoint basename (p : string) : string :=
  match p with
  | EmptyString => EmptyString
  | String c r =>
      match before_last "/"%char r, ascii_dec c "/"%char with
      | None, left _ => r
      | None, right _ => p
      | Some _, _ => basename r
      end
  end.

(** ** The path derivations of the two scripts *)

(** [mp3.lower().endswith(".mp3")] (audio_scrubber.py, line 87). *)
Definition cli_is_mp3 (mp3 : string) : bool := endswith (lower mp3) ".mp3".

(** [mp3.replace(".mp3", "_rerecord.wav")] (line 91). *)
Definition cli_temp_path (mp3 : string) : string :=
  replace ".mp3" "_rerecord.wav" mp3.

(** [mp3.replace(".mp3", "_clean.wav")] (line 92). *)
Definition cli_final_path (mp3 : string) : string :=
  replace ".mp3" "_clean.wav" mp3.

(** [f_path.rsplit('.', 1)[0] + "_rerecord.wav"] (gui, line 146). *)
Definition gui_temp_path (f : string) : string :=
  rsplit1_head "." f ^^ "_rerecord.wav".

(** [f_path.rsplit('.', 1)[0] + "_clean.wav"] (gui, line 147). *)
Definition gui_final_path (f : string) : string :=
  rsplit1_head "." f ^^ "_clean.wav".

(** ** Lemmas on strings and on the scan of [replace] *)

Lemma append_empty_r (s : string) : s ^^ "" = s.
Proof. induction s as [|c s IH]; simpl; [done|by rewrite IH]. Qed.

Lemma append_assoc (a b c : string) : (a ^^ b) ^^ c = a ^^ b ^^ c.
Proof. induction a as [|x a IH]; simpl; [done|by rewrite IH]. Qed.

Lemma length_append (a b : string) :
  String.length (a ^^ b) = String.length a + String.length b.
Proof. induction a as [|x a IH]; simpl; [done|by rewrite IH]. Qed.

Lemma prefix_empty (s : string) : String.prefix "" s = true.
Proof. by destruct s. Qed.

Lemma prefix_refl_app (p r : string) : String.prefix p (p ^^ r) = true.
Proof.
  induction p as [|c p IH]; simpl; [apply prefix_empty|].
  destruct (ascii_dec c c); [exact IH|done].
Qed.

(** Appending to a string at least as long as [p] does not change
    whether [p] is its prefix. *)
Lemma prefix_app_long (p x y : string) :
  String.length p <= String.length x ->
  String.prefix p (x ^^ y) = String.prefix p x.
Proof.
  revert x. induction p as [|c p IH]; intros [|d x] Hle; simpl in *;
    [by rewrite !prefix_empty|done|lia|].
  destruct (ascii_dec c d); [apply IH; lia|done].
Qed.

Lemma index0_cons (old : string) (c : ascii) (s : string) :
  String.index 0 old (String c s) =
  if String.prefix old (String c s) then Some 0
  else option_map S (String.index 0 old s).
Proof. simpl. by destruct (String.index 0 old s). Qed.

(** The [skip] counter drops exactly the rest of a match. *)
Lemma replace_from_skip (old new x y : string) :
  replace_from old new (String.length x) (x ^^ y) = replace_from old new 0 y.
Proof. induction x as [|c x IH]; simpl; [done|exact IH]. Qed.

(** Where [old] does not occur, [replace] leaves the string alone. *)
Lemma replace_from_no_occurrence (old new s : string) :
  old <> "" -> String.index 0 old s = None -> replace_from old new 0 s = s.
Proof.
  intros Hne. induction s as [|c s IH]; intros Hidx; [done|].
  rewrite index0_cons in Hidx. cbn [replace_from].
  destruct (String.prefix old (String c s)); [congruence|].
  destruct (String.index 0 old s) eqn:E; [done|]. by rewrite IH.
Qed.

(** The first occurrence of [old] ends the stem [a]: [replace] copies
    [a], writes [new] and goes on after the match. *)
Lemma replace_from_first (old new a rest : string) :
  old <> "" ->
  String.index 0 old (a ^^ old) = Some (String.length a) ->
  replace_from old new 0 (a ^^ old ^^ rest) = a ^^ new ^^ replace_from old new 0 rest.
Proof.
  intros Hne. induction a as [|c a IH]; intros Hidx.
  - destruct old as [|o old]; [done|].
    change (replace_from (String o old) new 0 (String o (old ^^ rest)) =
            new ^^ replace_from (String o old) new 0 rest).
    cbn [replace_from].
    replace (String.prefix (String o old) (String o (old ^^ rest))) with true
      by (symmetry; exact (prefix_refl_app (String o old) rest)).
    assert (Hl : String.length (String o old) - 1 = String.length old)
      by (simpl; lia).
    by rewrite Hl, replace_from_skip.
  - cbn [String.append replace_from String.length] in Hidx |- *.
    rewrite index0_cons in Hidx.
    destruct (String.prefix old (String c (a ^^ old))) eqn:Hp; [done|].
    assert (Hp' : String.prefix old (String c (a ^^ old ^^ rest)) = false).
    { rewrite <- append_assoc.
      change (String c ((a ^^ old) ^^ rest)) with (String c (a ^^ old) ^^ rest).
      rewrite prefix_app_long; [done|]. simpl. rewrite length_append. lia. }
    rewrite Hp', IH; [done|].
    destruct (String.index 0 old (a ^^ old)) as [n|]; [|done].
    by injection Hidx as ->.
Qed.

Lemma before_last_none (sep : ascii) (s : string) :
  String.index 0 (String sep "") s = None -> before_last sep s = None.
Proof.
  induction s as [|c s IH]; intros Hidx; [done|].
  rewrite index0_cons in Hidx. cbn [before_last]. simpl in Hidx.
  destruct (ascii_dec sep c) as [->|Hne]; [by rewrite prefix_empty in Hidx|].
  destruct (String.index 0 (String sep "") s) eqn:E; [done|].
  rewrite IH by done. by destruct (ascii_dec c sep); [congruence|].
Qed.

Lemma before_last_stem (sep : ascii) (base ext : string) :
  before_last sep ext = None ->
  before_last sep (base ^^ String sep ext) = Some base.
Proof.
  intros Hext. induction base as [|c base IH]; simpl.
  - rewrite Hext. by destruct (ascii_dec sep sep).
  - by rewrite IH.
Qed.

(** [replace] on a name whose first occurrence of [old] is its end. *)
Lemma replace_from_stem (old new a : string) :
  old <> "" ->
  String.index 0 old (a ^^ old) = Some (String.length a) ->
  replace_from old new 0 (a ^^ old) = a ^^ new.
Proof.
  intros Hne Hidx.
  pose proof (replace_from_first old new a "" Hne Hidx) as H.
  rewrite append_empty_r in H. rewrite H. simpl. by rewrite append_empty_r.
Qed.

Lemma replace_stem (old new a : string) :
  old <> "" ->
  String.index 0 old (a ^^ old) = Some (String.length a) ->
  replace old new (a ^^ old) = a ^^ new.
Proof.
  intros Hne Hidx. unfold replace.
  destruct (String.eqb_spec old ""); [done|]. by apply replace_from_stem.
Qed.

Lemma replace_no_occurrence (old new s : string) :
  old <> "" -> String.index 0 old s = None -> replace old new s = s.
Proof.
  intros Hne Hidx. unfold replace.
  destruct (String.eqb_spec old ""); [done|].
  by apply replace_from_no_occurrence.
Qed.

Lemma endswith_app (a suffix : string) : endswith (a ^^ suffix) suffix = true.
Proof.
  induction a as [|c a IH].
  - destruct suffix; cbn [endswith String.append]; by rewrite String.eqb_refl.
  - cbn [endswith String.append]. rewrite IH. apply orb_true_r.
Qed.

Lemma append_cancel_l (a x y : string) : a ^^ x = a ^^ y -> x = y.
Proof. induction a as [|c a IH]; simpl; [done|]. intros [= H]. by apply IH. Qed.

Lemma lower_app (a b : string) : lower (a ^^ b) = lower a ^^ lower b.
Proof. induction a as [|c a IH]; simpl; [done|by rewrite IH]. Qed.

(** A name ending in a lower-case suffix passes the filter for it. *)
Lemma endswith_lower_app (a suffix : string) :
  lower suffix = suffix -> endswith (lower (a ^^ suffix)) suffix = true.
Proof. intros Hs. rewrite lower_app, Hs. apply endswith_app. Qed.

(** The stem's three derived names are pairwise distinct. *)
Lemma cli_names_distinct (base : string) :
  base ^^ ".mp3" <> base ^^ "_rerecord.wav" /\
  base ^^ ".mp3" <> base ^^ "_clean.wav" /\
  base ^^ "_rerecord.wav" <> base ^^ "_clean.wav".
Proof. split_and!; intros Heq%append_cancel_l; discriminate. Qed.

(** ** Properties of the derived paths *)

(** C5: for a name [base ++ ".mp3"] whose only occurrence of [".mp3"]
    is its extension, the command-line script writes the capture to
    [base ++ "_rerecord.wav"] and the result to [base ++ "_clean.wav"],
    as the spec's [X.ext -> X_clean.wav] says. *)
Theorem cli_paths_of_stem (base : string) :
  String.index 0 ".mp3" (base ^^ ".mp3") = Some (String.length base) ->
  cli_temp_path (base ^^ ".mp3") = base ^^ "_rerecord.wav" /\
  cli_final_path (base ^^ ".mp3") = base ^^ "_clean.wav".
Proof.
  intros Hidx. unfold cli_temp_path, cli_final_path.
  split; by apply replace_stem.
Qed.

Lemma cli_paths_of_stem_witness :
  String.index 0 ".mp3" ("songs/a" ^^ ".mp3") = Some (String.length "songs/a") /\
  cli_temp_path ("songs/a" ^^ ".mp3") = "songs/a" ^^ "_rerecord.wav" /\
  cli_final_path ("songs/a" ^^ ".mp3") = "songs/a" ^^ "_clean.wav".
Proof.
  split; [reflexivity|]. apply cli_paths_of_stem. reflexivity.
Defined.

(** C6: [str.replace] rewrites every [".mp3"] of the path, not only the
    extension: for [d ++ ".mp3/" ++ b ++ ".mp3"] the temporary file is
    [d ++ "_rerecord.wav/" ++ b ++ "_rerecord.wav"], in a directory that
    is not the input's. *)
Theorem cli_temp_path_every_occurrence (d b : string) :
  String.index 0 ".mp3" (d ^^ ".mp3") = Some (String.length d) ->
  String.index 0 ".mp3" (b ^^ ".mp3") = Some (String.length b) ->
  cli_temp_path (d ^^ ".mp3/" ^^ b ^^ ".mp3") =
  d ^^ "_rerecord.wav/" ^^ b ^^ "_rerecord.wav".
Proof.
  intros Hd Hb. unfold cli_temp_path, replace. simpl (String.eqb _ _).
  change (".mp3/" ^^ b ^^ ".mp3") with (".mp3" ^^ String "/" (b ^^ ".mp3")).
  rewrite replace_from_first by done.
  cbn [replace_from].
  change (String.prefix ".mp3" (String "/" (b ^^ ".mp3"))) with false.
  cbv iota. by rewrite replace_from_stem.
Qed.

Lemma cli_temp_path_every_occurrence_witness :
  cli_temp_path ("album.mp3" ^^ "/" ^^ "track" ^^ ".mp3") =
  "album_rerecord.wav/track_rerecord.wav".
Proof.
  change ("album.mp3" ^^ "/" ^^ "track" ^^ ".mp3") with
    ("album" ^^ ".mp3/" ^^ "track" ^^ ".mp3").
  rewrite cli_temp_path_every_occurrence; reflexivity.
Defined.

(** C7: a name that passes the case-insensitive filter
    [mp3.lower().endswith(".mp3")] without containing the lower-case
    [".mp3"] (such as [SONG.MP3]) is left unchanged by [replace]: its
    temporary path, its final path and the input are one file. *)
Theorem cli_paths_case_collision (s : string) :
  cli_is_mp3 s = true -> String.index 0 ".mp3" s = None ->
  cli_temp_path s = s /\ cli_final_path s = s.
Proof.
  intros _ Hidx. unfold cli_temp_path, cli_final_path.
  split; by apply replace_no_occurrence.
Qed.

Lemma cli_paths_case_collision_witness :
  cli_is_mp3 "SONG.MP3" = true /\ String.index 0 ".mp3" "SONG.MP3" = None /\
  cli_temp_path "SONG.MP3" = "SONG.MP3" /\ cli_final_path "SONG.MP3" = "SONG.MP3".
Proof.
  split; [reflexivity|]. split; [reflexivity|].
  apply cli_paths_case_collision; reflexivity.
Defined.

(** C8: the GUI's stem is everything before the last ['.'] of the whole
    path: for [base ++ "." ++ ext] with no ['.'] in [ext] the outputs
    are [base ++ "_rerecord.wav"] and [base ++ "_clean.wav"], also when
    the dot belongs to a directory and [ext] is a file name. *)
Theorem gui_paths_of_stem (base ext : string) :
  String.index 0 "." ext = None ->
  gui_temp_path (base ^^ "." ^^ ext) = base ^^ "_rerecord.wav" /\
  gui_final_path (base ^^ "." ^^ ext) = base ^^ "_clean.wav".
Proof.
  intros Hext. unfold gui_temp_path, gui_final_path, rsplit1_head.
  change ("." ^^ ext) with (String "." ext).
  rewrite (before_last_stem "." base ext) by (by apply before_last_none).
  done.
Qed.

Lemma gui_paths_of_stem_witness :
  String.index 0 "." "d/song" = None /\
  gui_final_path ("music" ^^ "." ^^ "d/song") = "music" ^^ "_clean.wav".
Proof.
  split; [reflexivity|]. apply (gui_paths_of_stem "music" "d/song"). reflexivity.
Defined.

End PyStr.
