(* ===== verification/World.v ===== *)
(** * The state the scripts act on

    The file system is a stdpp [gmap] from path to content.  An input
    file is an opaque [Encoded] blob (an MP3 or any file [ffmpeg] reads);
    a file written by [soundfile] or by [ffmpeg] is a [Wav] with its
    sample rate, channel count, subtype and frames.  The [clock] counts
    audio frames at 44100 Hz since the program started: a blocking read
    of 1024 frames from the capture device advances it by 1024 and
    [time.sleep(0.1)] by 4410.  [model_loads] counts calls of
    [EncodecModel.encodec_model_48khz()] and [log] collects the lines
    printed by the command-line script or passed to the GUI's
    [status_callback].

    The collaborators the scripts only call are the [Externals] class:
    what [ffmpeg] decodes a file to and how long it takes, whether the
    capture device opens and which block it delivers at a given time.
    Theorems quantify over every instance; witnesses use a concrete one. *)

From Stdlib Require Import String ZArith NArith Lia.
From stdpp Require Import base gmap strings list.
From S2P Require Import Prelude PyStr.

Module World.

(** ** Contents *)

(** The [subtype] argument of [soundfile] and [ffmpeg]'s WAV codec. *)
Inductive subtype := PCM_16 | PCM_24 | FLOAT.

#[export] Instance subtype_eq_dec : EqDecision subtype.
Proof. solve_decision. Defined.

(** A frame is one sample per channel. *)
Definition frame := list Z.

Record wav := mkWav {
  wav_rate : Z;
  wav_channels : nat;
  wav_subtype : subtype;
  wav_frames : list frame
}.

(** The WAV [v] with [data] written after its frames. *)
Definition wav_append (v : wav) (data : list frame) : wav :=
  mkWav (wav_rate v) (wav_channels v) (wav_subtype v) (wav_frames v ++ data).

Inductive content :=
  | Encoded (id : string)
  | Wav (w : wav).

(** ** The world *)

Record world := mkWorld {
  fs : gmap string content;
  clock : N;
  model_loads : nat;
  log : list string
}.

Definition set_fs (m : gmap string content) (w : world) : world :=
  mkWorld m (clock w) (model_loads w) (log w).

Definition W := PyM world.

(** ** External collaborators *)

Class Externals := {
  (** The stereo 44.1 kHz frames [ffmpeg] decodes a content to, or
      [None] when it cannot decode it (it then exits with status 1). *)
  ffmpeg_decode : content -> option (list frame);
  (** The time, in frames at 44.1 kHz, [ffmpeg] needs to decode a file
      and write [n] bytes to a pipe that never fills. *)
  decode_time : N -> N;
  (** Whether [sd.InputStream(device=d, ...)] opens device [d]. *)
  device_opens : string -> bool;
  (** The 1024-frame block a read of device [d] returns when it starts
      at time [t], with the [overflowed] flag [sounddevice] returns. *)
  device_block : string -> N -> list frame * bool;
  (** [julius.resample_frac(x, old_sr, new_sr)] on one channel. *)
  resample : Z -> Z -> list Z -> list Z;
  (** [model.decode(model.encode(wav))] of the 48 kHz EnCodec model at a
      target bandwidth (in tenths of kbps), on a channels-first
      waveform. *)
  encodec_roundtrip : Z -> list (list Z) -> list (list Z)
}.

Section Ops.
Context `{Externals}.

(** [print(msg)] or [status_callback(msg)]. *)
Definition print (msg : string) : W unit :=
  modify (fun w => mkWorld (fs w) (clock w) (model_loads w) (log w ++ [msg])).

(** Let [n] frames of time pass. *)
Definition advance (n : N) : W unit :=
  modify (fun w => mkWorld (fs w) (clock w + n)%N (model_loads w) (log w)).

(** [os.path.exists(p)]. *)
Definition path_exists (p : string) : W bool :=
  fun w => (Ok (bool_decide (is_Some (fs w !! p))), w).

(** [os.remove(p)]: [FileNotFoundError] when [p] does not exist. *)
Definition os_remove (p : string) : W unit :=
  fun w =>
    match fs w !! p with
    | Some _ => (Ok tt, set_fs (delete p (fs w)) w)
    | None => (Raise (FileNotFoundError p), w)
    end.

(** [os.rename(src, dst)] with its POSIX meaning: an existing [dst] is
    replaced; renaming a file to itself does nothing. *)
Definition os_rename (src dst : string) : W unit :=
  fun w =>
    match fs w !! src with
    | Some c =>
        if bool_decide (src = dst) then (Ok tt, w)
        else (Ok tt, set_fs (<[dst := c]> (delete src (fs w))) w)
    | None => (Raise (FileNotFoundError src), w)
    end.

(** [sf.SoundFile(path, mode="w", samplerate=rate, channels=ch,
    subtype=st)]: creates (or truncates) a WAV file with no frames.
    [soundfile] takes the container from the extension; the scripts
    only open [.wav] paths, and a path with any other extension (the
    collision of [PyStr.cli_paths_case_collision], an MP3 name) is
    refused with [ValueError], as PCM_24 is no MP3 subtype. *)
Definition sf_open_write (path : string) (rate : Z) (ch : nat) (st : subtype)
    : W unit :=
  fun w =>
    if PyStr.endswith (PyStr.lower path) ".wav"
    then (Ok tt, set_fs (<[path := Wav (mkWav rate ch st [])]> (fs w)) w)
    else (Raise (ValueError "Invalid combination of format, subtype and endian"), w).

(** [f.write(data)] on a file opened by [sf_open_write]: the frames
    are appended to the file. *)
Definition sf_write_frames (path : string) (data : list frame) : W unit :=
  fun w =>
    match fs w !! path with
    | Some (Wav v) => (Ok tt, set_fs (<[path := Wav (wav_append v data)]> (fs w)) w)
    | _ => (Raise (ValueError "I/O operation on closed file"), w)
    end.

(** [sf.write(path, data, rate, subtype=st)]: (over)writes the file
    with the frames of [data], one row per frame. *)
Definition sf_write (path : string) (data : list frame) (ch : nat) (rate : Z)
    (st : subtype) : W unit :=
  fun w =>
    if PyStr.endswith (PyStr.lower path) ".wav"
    then (Ok tt, set_fs (<[path := Wav (mkWav rate ch st data)]> (fs w)) w)
    else (Raise (ValueError "Invalid combination of format, subtype and endian"), w).
End Ops.

(** ** Effects confined to one path *)

(** Every path but [o] has the same content in [w'] as in [w], and no
    model was loaded in between. *)
Definition untouched_except (o : string) (w w' : world) : Prop :=
  model_loads w' = model_loads w /\ forall q, q <> o -> fs w' !! q = fs w !! q.

#[export] Instance untouched_except_preorder o : PreOrder (untouched_except o).
Proof.
  split; [done|].
  intros w1 w2 w3 [L12 H12] [L23 H23]. split; [congruence|].
  intros q Hq. by rewrite H23, H12.
Qed.

Lemma untouched_except_lookup o w w' q :
  untouched_except o w w' -> q <> o -> fs w' !! q = fs w !! q.
Proof. intros [_ Hu]. apply Hu. Qed.

(** Overwriting [o] erases what happened to [o] before. *)
Lemma untouched_except_insert o c w w' :
  untouched_except o w w' -> <[o := c]> (fs w') = <[o := c]> (fs w).
Proof.
  intros Hu. apply map_eq. intros q.
  destruct (decide (q = o)) as [->|Hne].
  - by rewrite !lookup_insert_eq.
  - rewrite !lookup_insert_ne by done. by apply (untouched_except_lookup o).
Qed.

Section Confinement.
Context `{Externals}.

Lemma print_confined o msg : confined (untouched_except o) (print msg).
Proof. intros w r w' [= <- <-]. split; [done|by intros ? ?]. Qed.

Lemma advance_confined o n : confined (untouched_except o) (advance n).
Proof. intros w r w' [= <- <-]. split; [done|by intros ? ?]. Qed.

Lemma sf_open_write_confined o rate ch st :
  confined (untouched_except o) (sf_open_write o rate ch st).
Proof.
  intros w r w'. unfold sf_open_write.
  destruct (PyStr.endswith _ _); intros [= <- <-];
    (split; [|by intros ? [= <-]]); [|done].
  split; [done|]. intros q Hq. by apply lookup_insert_ne.
Qed.

Lemma sf_write_frames_confined o data :
  confined (untouched_except o) (sf_write_frames o data).
Proof.
  intros w r w'. unfold sf_write_frames.
  destruct (fs w !! o) as [[|v]|]; intros [= <- <-];
    (split; [|by intros ? [= <-]]); try done.
  split; [done|]. intros q Hq. by apply lookup_insert_ne.
Qed.

Lemma sf_write_frames_ok path v data w :
  fs w !! path = Some (Wav v) ->
  sf_write_frames path data w =
    (Ok tt, set_fs (<[path := Wav (wav_append v data)]> (fs w)) w).
Proof. unfold sf_write_frames. by intros ->. Qed.
End Confinement.

Section PrintLemmas.
Context `{Externals}.

Lemma for_each_print msgs w :
  exists w', for_each msgs print w = (Ok tt, w') /\ fs w' = fs w /\ clock w' = clock w /\
             model_loads w' = model_loads w.
Proof.
  revert w. induction msgs as [|m msgs IH]; intros w; [by eexists|].
  simpl. unfold bind. cbn [print modify].
  destruct (IH (mkWorld (fs w) (clock w) (model_loads w) (log w ++ [m])))
    as (w' & -> & Hfs & Hc & Hm). by exists w'.
Qed.
End PrintLemmas.

#[export] Hint Resolve print_confined advance_confined sf_open_write_confined
  sf_write_frames_confined : py.

(** ** A concrete world for the witnesses

    [ffmpeg] decodes the input ["short"] to 100 frames and ["long"] to
    9000 frames (72000 bytes of float PCM, more than a pipe holds), and
    nothing else; it needs one frame of time per byte; only the device
    ["default"] opens, and it returns two frames stamped with the time
    of the read. *)
Definition demo_externals : Externals := {|
  ffmpeg_decode c :=
    match c with
    | Encoded "short" => Some (repeat [1; 2]%Z 100)
    | Encoded "long" => Some (repeat [1; 2]%Z (9 * 1000))
    | _ => None
    end;
  decode_time n := n;
  device_opens d := String.eqb d "default";
  device_block d t := (repeat [Z.of_N t; 0]%Z 2, false);
  resample old new x := x;
  encodec_roundtrip bw wav := map (map (fun x => x * 2)%Z) wav
|}.

Definition demo_world : world :=
  mkWorld {[ "a.mp3" := Encoded "short"; "b.mp3" := Encoded "long";
             "c.mp3" := Encoded "corrupt" ]} 0 0 [].

End World.
