(* ===== verification/Capture.v ===== *)
(** * The loopback capture: [rerecord]

    [rerecord] (src/audio_scrubber.py, lines 20-42; the GUI's copy,
    src/audio_scrubber_gui.py, lines 16-41) starts [ffmpeg] decoding the
    input to raw 32-bit float stereo PCM on a pipe, opens the output WAV
    and the capture device, sleeps 0.1 s, copies one 1024-frame block
    per [player.poll() is None], drains ten more blocks, and on any
    exception falls back to a direct [ffmpeg] conversion.

    Two facts of the code shape everything proved here:
    - nobody reads [player.stdout]: once [ffmpeg] has filled the pipe
      (64 KiB on Linux) it blocks in [write] and never exits, so
      [player.poll()] stays [None] for ever;
    - [sounddevice]'s [Stream.read(frames)] takes no keyword argument:
      the drain's [stream.read(1024, exception_on_overflow=False)] raises
      [TypeError], and the [except] branch replaces the captured audio by
      the direct conversion. *)

From Stdlib Require Import String ZArith NArith Lia.
From stdpp Require Import base gmap strings list.
From S2P Require Import Prelude PyStr World.

Module Capture.
Import World.

(** ** Constants of the code *)

(** [TARGET_SR = 44100] (line 15). *)
Definition TARGET_SR : Z := 44100.
(** [stream.read(1024)] (lines 34 and 37). *)
Definition BLOCK_FRAMES : N := 1024.
(** [time.sleep(0.1)] (line 32), in frames at 44.1 kHz. *)
Definition SETTLE_FRAMES : N := 4410.
(** [for _ in range(10)] (line 36). *)
Definition DRAIN_READS : nat := 10.
(** The capacity of a Linux pipe, the default of [subprocess.PIPE]. *)
Definition PIPE_CAPACITY : N := 65536.
(** Bytes per frame of [-f f32le -ac 2]: two 4-byte floats. *)
Definition F32_STEREO_BYTES : N := 8.

(** The [ffmpeg] player: when it started and how many bytes of PCM it
    has to write to its stdout pipe. *)
Record player := mkPlayer { p_start : N; p_bytes : N }.

(** The file [ffmpeg -y -i input -ar 44100 -ac 2 output.wav] writes:
    [ffmpeg]'s default WAV codec is 16-bit PCM. *)
Definition direct_wav (fr : list frame) : wav := mkWav TARGET_SR 2 PCM_16 fr.

Section Capture.
Context `{Externals}.

(** What [ffmpeg] decodes the file at [input] to, if anything. *)
Definition decoded (w : world) (input : string) : option (list frame) :=
  fs w !! input ≫= ffmpeg_decode.

(** The bytes of [-f f32le -ac 2] PCM [ffmpeg] writes for a decode. *)
Definition pcm_bytes (d : option (list frame)) : N :=
  match d with
  | Some fr => (F32_STEREO_BYTES * N.of_nat (length fr))%N
  | None => 0%N
  end.

(** [subprocess.Popen(["ffmpeg", "-y", "-i", input, "-f", "f32le",
    "-ac", "2", "-ar", str(TARGET_SR), "-"], stdout=PIPE,
    stderr=DEVNULL)] (lines 22-25).  An input [ffmpeg] cannot decode
    makes it exit at once, having written nothing. *)
Definition popen_player (input : string) : W player :=
  fun w => (Ok (mkPlayer (clock w) (pcm_bytes (decoded w input))), w).

(** [player.poll() is None] at time [t]: [ffmpeg] runs while it
    decodes, and for ever once its output exceeds the pipe, which
    nobody reads. *)
Definition player_alive (p : player) (t : N) : bool :=
  (PIPE_CAPACITY <? p_bytes p)%N || (t <? p_start p + decode_time (p_bytes p))%N.

Definition poll_alive (p : player) : W bool :=
  fun w => (Ok (player_alive p (clock w)), w).

(** [sd.InputStream(device=dev, channels=2, samplerate=TARGET_SR,
    dtype="float32")] (lines 30-31). *)
Definition stream_open (dev : string) : W unit :=
  fun w => if device_opens dev then (Ok tt, w) else (Raise (PortAudioError dev), w).

(** [stream.read(n, **kwargs)]: [sounddevice]'s [read] has the one
    parameter [frames]; it blocks for [n] frames of time and returns
    the block and the overflow flag. *)
Definition stream_read (dev : string) (n : N) (kwargs : list string)
    : W (list frame * bool) :=
  match kwargs with
  | [] => fun w => (Ok (device_block dev (clock w)),
                    mkWorld (fs w) (clock w + n)%N (model_loads w) (log w))
  | k :: _ => raise (TypeError ("read() got an unexpected keyword argument '" ^^ k ^^ "'"))
  end%string.

(** [data, _ = stream.read(1024, **kwargs); f.write(data)]. *)
Definition capture_block (dev out : string) (kwargs : list string) : W unit :=
  r <- stream_read dev BLOCK_FRAMES kwargs ;;
  sf_write_frames out (fst r).

(** [while player.poll() is None: data, overflow = stream.read(1024);
    f.write(data)] (lines 33-35). *)
Definition capture_while (fuel : nat) (p : player) (dev out : string) : W unit :=
  while_ fuel (poll_alive p) (capture_block dev out []).

(** [for _ in range(10): data, _ = stream.read(1024,
    exception_on_overflow=False); f.write(data)] (lines 36-38). *)
Definition capture_drain (dev out : string) : W unit :=
  for_range DRAIN_READS (capture_block dev out ["exception_on_overflow"%string]).

(** [subprocess.run(["ffmpeg", "-y", "-i", input, "-ar",
    str(TARGET_SR), "-ac", "2", output], check=True)] (line 42).
    [ffmpeg] refuses to write the file it reads. *)
Definition ffmpeg_convert (input output : string) : W unit :=
  fun w =>
    match decoded w input with
    | Some fr =>
        if bool_decide (input = output) then (Raise (CalledProcessError 1), w)
        else (Ok tt, set_fs (<[output := Wav (direct_wav fr)]> (fs w)) w)
    | None => (Raise (CalledProcessError 1), w)
    end.

(** The [try] block of [rerecord] (lines 27-38): open the output, open
    the device, settle, capture while [ffmpeg] runs, drain. *)
Definition capture_attempt (fuel : nat) (p : player) (dev output : string) : W unit :=
  sf_open_write output TARGET_SR 2 PCM_24 ;;
  stream_open dev ;;
  advance SETTLE_FRAMES ;;
  capture_while fuel p dev output ;;
  capture_drain dev output.

(** The [except Exception as e] block (lines 39-42): report, convert. *)
Definition fallback (input output : string) (msgs : list string) : W unit :=
  for_each msgs print ;;
  ffmpeg_convert input output.

(** The body of [rerecord], shared by both scripts, which differ only
    in the messages they print. *)
Definition rerecord_core (fuel : nat) (input output dev : string)
    (start_msg : string) (fail_msgs : exn -> list string) : W unit :=
  print start_msg ;;
  p <- popen_player input ;;
  try_except (capture_attempt fuel p dev output)
             (fun e => fallback input output (fail_msgs e)).

(** [rerecord(input_mp3, output_wav)] of the command-line script, with
    the device [VIRTUAL_DEVICE]. *)
Definition rerecord (fuel : nat) (dev input output : string) : W unit :=
  rerecord_core fuel input output dev
    ("Re-recording " ^^ input ^^ " via loopback...")
    (fun e => ["Error during re-recording: " ^^ exn_message e;
               "Falling back to direct conversion for simulation..."])%string.

(** [rerecord(input_mp3, output_wav, device_name, status_callback)] of
    the GUI. *)
Definition gui_rerecord (fuel : nat) (input output dev : string) : W unit :=
  rerecord_core fuel input output dev
    ("Re-recording " ^^ PyStr.basename input ^^ "...")
    (fun _ => ["Loopback failed, falling back to direct conversion..."])%string.
End Capture.

(** The frames [k] successive reads of device [dev] return, the first
    one starting at time [t]. *)
Fixpoint blocks_from `{Externals} (dev : string) (t : N) (k : nat) : list frame :=
  match k with
  | O => []
  | S k => fst (device_block dev t) ++ blocks_from dev (t + BLOCK_FRAMES)%N k
  end.

(** ** Lemmas *)

Section CaptureLemmas.
Context `{Externals}.

Lemma decoded_untouched o input w w' :
  input <> o -> untouched_except o w w' -> decoded w' input = decoded w input.
Proof. intros Hne Hu. unfold decoded. by rewrite (untouched_except_lookup o w w'). Qed.

Lemma stream_read_confined o dev n kw :
  confined (untouched_except o) (stream_read dev n kw).
Proof.
  destruct kw; intros w r w' [= <- <-];
    (split; [done|by intros ? [= <-]]).
Qed.

Lemma poll_alive_confined o p : confined (untouched_except o) (poll_alive p).
Proof. apply confined_pure; [apply _|by intros ? ? ?]. Qed.

Lemma stream_open_confined o dev : confined (untouched_except o) (stream_open dev).
Proof.
  unfold stream_open. intros w r w'.
  destruct (device_opens dev); intros [= <- <-];
    (split; [reflexivity|by intros ? [= <-]]).
Qed.

#[local] Hint Resolve stream_read_confined poll_alive_confined
  stream_open_confined : py.

Lemma capture_block_confined o dev kw :
  confined (untouched_except o) (capture_block dev o kw).
Proof. apply confined_bind; [apply _|auto with py|auto with py]. Qed.

#[local] Hint Resolve capture_block_confined : py.

Lemma capture_while_confined fuel p dev o :
  confined (untouched_except o) (capture_while fuel p dev o).
Proof. apply confined_while; [apply _|auto with py|auto with py]. Qed.

Lemma capture_drain_confined dev o :
  confined (untouched_except o) (capture_drain dev o).
Proof. apply confined_for_range; [apply _|auto with py]. Qed.

#[local] Hint Resolve capture_while_confined capture_drain_confined : py.

(** Everything the [try] block does is confined to the output file. *)
Lemma capture_attempt_confined fuel p dev o :
  confined (untouched_except o) (capture_attempt fuel p dev o).
Proof.
  unfold capture_attempt.
  do 4 (apply confined_bind; [apply _|auto with py|intros _]). auto with py.
Qed.

Lemma capture_block_ok dev out v w :
  fs w !! out = Some (Wav v) ->
  capture_block dev out [] w =
    (Ok tt, mkWorld (<[out := Wav (wav_append v (fst (device_block dev (clock w))))]> (fs w))
                    (clock w + BLOCK_FRAMES)%N (model_loads w) (log w)).
Proof.
  intros Hv. unfold capture_block. cbn [bind stream_read].
  by rewrite (sf_write_frames_ok out v).
Qed.

(** The drain's [read] with a keyword raises before it writes. *)
Lemma capture_drain_raises dev out w :
  capture_drain dev out w =
    (Raise (TypeError "read() got an unexpected keyword argument 'exception_on_overflow'"), w).
Proof. reflexivity. Qed.

(** So the [try] block never completes normally. *)
Lemma capture_attempt_never_ok fuel p dev out : never_ok (capture_attempt fuel p dev out).
Proof.
  unfold capture_attempt.
  do 4 (apply never_ok_bind; intros _).
  intros w a w'. by rewrite capture_drain_raises.
Qed.

(** The [except] branch: the direct conversion, or [CalledProcessError]
    when [ffmpeg] cannot decode the input. *)
Lemma fallback_run input output msgs w :
  input <> output ->
  exists w', fallback input output msgs w =
    (match decoded w input with
     | Some _ => Ok tt
     | None => Raise (CalledProcessError 1)
     end, w') /\
    fs w' = match decoded w input with
            | Some fr => <[output := Wav (direct_wav fr)]> (fs w)
            | None => fs w
            end /\
    model_loads w' = model_loads w.
Proof.
  intros Hne. unfold fallback.
  destruct (for_each_print msgs w) as (w1 & Hp & Hfs & _ & Hm).
  rewrite (bind_ok _ _ _ _ _ Hp). unfold ffmpeg_convert, decoded.
  rewrite Hfs. destruct (fs w !! input ≫= ffmpeg_decode) as [fr|].
  - rewrite bool_decide_false by done. by eexists.
  - by eexists.
Qed.

(** A run of the [try] block followed by the [except] branch: since the
    block never completes, the result is the branch's, started from a
    state that differs from the initial one in the output file only. *)
Lemma try_capture_attempt fuel p dev o h w r w' :
  try_except (capture_attempt fuel p dev o) h w = (r, w') -> r <> Hang ->
  exists e w2, untouched_except o w w2 /\ h e w2 = (r, w').
Proof.
  unfold try_except.
  destruct (capture_attempt fuel p dev o w) as [[a|e|] w2] eqn:E.
  - by destruct (capture_attempt_never_ok fuel p dev o w a w2).
  - destruct (capture_attempt_confined fuel p dev o w _ _ E) as [Hu Hx].
    rewrite (Hx e eq_refl). intros Hrun _. by exists e, w2.
  - by intros [= <- _].
Qed.

Lemma wav_append_nil v : wav_append v [] = v.
Proof. unfold wav_append. destruct v. simpl. by rewrite app_nil_r. Qed.

Lemma wav_append_app v a b : wav_append (wav_append v a) b = wav_append v (a ++ b).
Proof. unfold wav_append. simpl. by rewrite app_assoc. Qed.
End CaptureLemmas.

(** ** The capture never reaches the output *)

(** C1: whenever [rerecord] finishes (in either script), the output file
    holds [ffmpeg]'s direct conversion of the input and every other file
    is as before; when [ffmpeg] cannot decode the input it raises
    [CalledProcessError].  The loopback capture is always discarded: the
    drain's [read] raises [TypeError] and the [except] branch overwrites
    the captured file. *)
Theorem rerecord_output_is_direct_conversion `{Externals} fuel input output dev msg fails
    w r w' :
  input <> output ->
  rerecord_core fuel input output dev msg fails w = (r, w') -> r <> Hang ->
  match decoded w input with
  | Some fr => r = Ok tt /\ fs w' = <[output := Wav (direct_wav fr)]> (fs w) /\
               model_loads w' = model_loads w
  | None => r = Raise (CalledProcessError 1)
  end.
Proof.
  intros Hne Hrun Hfin. unfold rerecord_core in Hrun. cbn [bind print modify popen_player] in Hrun.
  destruct (try_capture_attempt _ _ _ _ _ _ _ _ Hrun Hfin) as (e & w2 & Hu & Hh).
  destruct (fallback_run input output (fails e) w2 Hne) as (w3 & Hf & Hfs & Hm).
  rewrite Hh in Hf. injection Hf as Hr Hw. subst w3.
  assert (Hd : decoded w2 input = decoded w input)
    by exact (decoded_untouched output input _ w2 Hne Hu).
  rewrite Hd in Hr, Hfs. rewrite Hr.
  destruct (decoded w input) as [fr|]; [|done].
  split; [done|]. split; [rewrite Hfs; exact (untouched_except_insert _ _ _ _ Hu)|].
  rewrite Hm. apply Hu.
Qed.

(** C4: the capture loop, run on an open output file, ends after [k]
    reads for some [k]: the player was alive at each of the [k] polls and
    dead at the last one, the clock advanced by [k] blocks, and the file
    received exactly the [k] blocks the device delivered, in read order,
    after what it held before. *)
Theorem capture_while_spec `{Externals} fuel p dev out v w w' :
  fs w !! out = Some (Wav v) ->
  capture_while fuel p dev out w = (Ok tt, w') ->
  exists k,
    clock w' = (clock w + BLOCK_FRAMES * N.of_nat k)%N /\
    fs w' = <[out := Wav (wav_append v (blocks_from dev (clock w) k))]> (fs w) /\
    (forall j, j < k -> player_alive p (clock w + BLOCK_FRAMES * N.of_nat j)%N = true) /\
    player_alive p (clock w') = false.
Proof.
  revert w v. induction fuel as [|n IH]; intros w v Hv Hrun; [discriminate|].
  unfold capture_while in Hrun. cbn [while_] in Hrun.
  rewrite (bind_ok _ _ w (player_alive p (clock w)) w) in Hrun by reflexivity.
  destruct (player_alive p (clock w)) eqn:Ha.
  - rewrite (bind_ok _ _ _ _ _ (capture_block_ok dev out v w Hv)) in Hrun.
    destruct (IH _ _ (lookup_insert_eq _ _ _) Hrun) as (k & Hc & Hfs & Hal & Hd).
    cbn [fs clock] in *. exists (S k). split; [rewrite Hc; lia|]. split.
    + rewrite Hfs, insert_insert_eq, wav_append_app. done.
    + split; [|done]. intros [|j] Hj; [by rewrite N.add_0_r|].
      rewrite <- (Hal j) by lia. f_equal. lia.
  - injection Hrun as <-. exists 0. cbn [N.of_nat blocks_from].
    rewrite N.mul_0_r, N.add_0_r, wav_append_nil, insert_id by done.
    split; [done|]. split; [done|]. split; [lia|done].
Qed.

(** ** Termination of [rerecord] *)

Section Termination.
Context `{Externals}.

Lemma sf_open_write_wav path rate ch st w :
  PyStr.endswith (PyStr.lower path) ".wav" = true ->
  sf_open_write path rate ch st w =
    (Ok tt, set_fs (<[path := Wav (mkWav rate ch st [])]> (fs w)) w).
Proof. unfold sf_open_write. by intros ->. Qed.

Lemma stream_open_ok dev w : device_opens dev = true -> stream_open dev w = (Ok tt, w).
Proof. unfold stream_open. by intros ->. Qed.

Lemma capture_while_hangs fuel p dev out w :
  (PIPE_CAPACITY < p_bytes p)%N ->
  (exists v, fs w !! out = Some (Wav v)) ->
  fst (capture_while fuel p dev out w) = Hang.
Proof.
  intros Hbig. apply (while_hang (fun w => exists v, fs w !! out = Some (Wav v))).
  - intros w1 Hw1. exists w1. split; [|done].
    unfold poll_alive, player_alive. apply N.ltb_lt in Hbig. by rewrite Hbig.
  - intros w1 [v Hv]. eexists. split; [exact (capture_block_ok dev out v w1 Hv)|].
    eexists. apply lookup_insert_eq.
Qed.

Lemma capture_while_terminates fuel p dev out w :
  (p_bytes p <= PIPE_CAPACITY)%N -> (p_start p <= clock w)%N ->
  N.to_nat (decode_time (p_bytes p)) < fuel ->
  finished (fst (capture_while fuel p dev out w)) = true.
Proof.
  intros Hsmall Hstart Hfuel.
  apply (while_terminates (fun w => N.to_nat (p_start p + decode_time (p_bytes p) - clock w)));
    [by eexists| |lia].
  intros w1 Halive. unfold poll_alive, player_alive in Halive.
  injection Halive as Halive. apply N.ltb_ge in Hsmall. rewrite Hsmall in Halive.
  simpl in Halive. apply N.ltb_lt in Halive.
  unfold capture_block. cbn [bind stream_read]. unfold sf_write_frames. simpl.
  destruct (fs w1 !! out) as [[|v]|]; simpl; [done| |done].
  unfold BLOCK_FRAMES. lia.
Qed.

Lemma fallback_finishes input output msgs w :
  finished (fst (fallback input output msgs w)) = true.
Proof.
  unfold fallback. destruct (for_each_print msgs w) as (w1 & Hp & _).
  rewrite (bind_ok _ _ _ _ _ Hp). unfold ffmpeg_convert.
  destruct (decoded w1 input); [by case_bool_decide|done].
Qed.

(** When the capture loop can end: the decoded input fits in the pipe
    and the fuel outlasts [ffmpeg], or the device does not open (the
    [try] block then raises before the loop).  In the remaining case,
    a long input on a working device, [rerecord] never returns (C2). *)
Definition capture_ends (fuel : nat) (dev : string) (bytes : N) : Prop :=
  ((bytes <= PIPE_CAPACITY)%N /\ N.to_nat (decode_time bytes) < fuel) \/
  device_opens dev = false.

(** The [try] block ends (by the drain's [TypeError] or an earlier
    error) once the player fits in the pipe and the fuel outlasts it,
    or when the device does not open. *)
Lemma capture_attempt_finishes fuel p dev output w :
  ((p_bytes p <= PIPE_CAPACITY)%N /\ (p_start p <= clock w)%N /\
   N.to_nat (decode_time (p_bytes p)) < fuel) \/ device_opens dev = false ->
  finished (fst (capture_attempt fuel p dev output w)) = true.
Proof.
  intros Hc. unfold capture_attempt.
  destruct (PyStr.endswith (PyStr.lower output) ".wav") eqn:Hwav;
    [|by unfold bind, sf_open_write; rewrite Hwav].
  rewrite (bind_ok _ _ _ _ _ (sf_open_write_wav _ _ _ _ _ Hwav)).
  destruct (device_opens dev) eqn:Hdev; [|by unfold bind, stream_open; rewrite Hdev].
  destruct Hc as [(Hsmall & Hstart & Hfuel)|Hc]; [|discriminate].
  rewrite (bind_ok _ _ _ _ _ (stream_open_ok _ _ Hdev)). cbn [advance modify bind].
  apply finished_bind.
  - apply capture_while_terminates; simpl; [done|lia|done].
  - intros [] w2 _. by rewrite capture_drain_raises.
Qed.

(** A whole run of [rerecord] whose capture loop ends: it returns the
    fallback's result, the output holds the direct
    conversion (or, when [ffmpeg] fails, whatever the [try] block left
    there), and nothing else changes. *)
Lemma rerecord_core_run fuel input output dev msg fails w :
  input <> output ->
  capture_ends fuel dev (pcm_bytes (decoded w input)) ->
  exists w', rerecord_core fuel input output dev msg fails w =
    (match decoded w input with
     | Some _ => Ok tt
     | None => Raise (CalledProcessError 1)
     end, w') /\
    match decoded w input with
    | Some fr => fs w' = <[output := Wav (direct_wav fr)]> (fs w)
    | None => untouched_except output w w'
    end /\
    model_loads w' = model_loads w.
Proof.
  intros Hne Hc. unfold rerecord_core. cbn [bind print modify popen_player].
  match goal with |- context [try_except _ _ ?x] => set (w1 := x) end.
  match goal with |- context [capture_attempt fuel ?p dev output] => set (pl := p) end.
  unfold try_except. cbv beta.
  destruct (capture_attempt fuel pl dev output w1) as [[a|e|] w2] eqn:E.
  - by destruct (capture_attempt_never_ok fuel pl dev output w1 a w2).
  - destruct (capture_attempt_confined fuel pl dev output w1 _ _ E) as [Hu Hx].
    rewrite (Hx e eq_refl).
    destruct (fallback_run input output (fails e) w2 Hne) as (w3 & -> & Hfs & Hm).
    rewrite (decoded_untouched output input w1 w2 Hne Hu) in Hfs |- *.
    change (decoded w1 input) with (decoded w input) in Hfs |- *.
    exists w3. split; [done|]. split; [|rewrite Hm, (proj1 Hu); reflexivity].
    destruct (decoded w input); [by rewrite Hfs, (untouched_except_insert _ _ _ _ Hu)|].
    split; [rewrite Hm; apply Hu|].
    intros q Hq. rewrite Hfs. exact (untouched_except_lookup _ _ _ _ Hu Hq).
  - pose proof (capture_attempt_finishes fuel pl dev output w1) as Hf.
    rewrite E in Hf. cbn in Hf. enough (false = true) by discriminate. apply Hf.
    destruct Hc as [[Hsmall Hfuel]|Hdev]; [left|by right]. simpl. split_and!; [done|lia|done].
Qed.
End Termination.

(** C2: [ffmpeg] writes into a pipe nobody reads, so when the decoded
    input is larger than the pipe (64 KiB, about 0.19 s of stereo float
    audio) and the device opens, [rerecord] never returns: the loop
    [while player.poll() is None] runs for ever. *)
Theorem rerecord_hangs_on_long_input `{Externals} fuel input output dev msg fails w :
  (PIPE_CAPACITY < pcm_bytes (decoded w input))%N ->
  device_opens dev = true ->
  PyStr.endswith (PyStr.lower output) ".wav" = true ->
  fst (rerecord_core fuel input output dev msg fails w) = Hang.
Proof.
  intros Hbig Hdev Hwav. unfold rerecord_core. cbn [bind print modify popen_player].
  apply fst_try_except_hang. unfold capture_attempt.
  rewrite (bind_ok _ _ _ _ _ (sf_open_write_wav _ _ _ _ _ Hwav)).
  rewrite (bind_ok _ _ _ _ _ (stream_open_ok _ _ Hdev)). cbn [advance modify bind].
  apply fst_bind_hang, capture_while_hangs; [exact Hbig|].
  eexists. apply lookup_insert_eq.
Qed.

(** C3: when the decoded input fits in the pipe, [ffmpeg] exits after
    [decode_time] frames of time, each capture read takes 1024 of them,
    and [rerecord] finishes (returns or raises) with any fuel larger
    than that time. *)
Theorem rerecord_terminates `{Externals} fuel input output dev msg fails w :
  (pcm_bytes (decoded w input) <= PIPE_CAPACITY)%N ->
  N.to_nat (decode_time (pcm_bytes (decoded w input))) < fuel ->
  finished (fst (rerecord_core fuel input output dev msg fails w)) = true.
Proof.
  intros Hsmall Hfuel. unfold rerecord_core. cbn [bind print modify popen_player].
  apply finished_try_except; [|intros; apply fallback_finishes].
  apply capture_attempt_finishes. left. simpl. split_and!; [done|lia|done].
Qed.


(** ** Witnesses *)

Lemma rerecord_output_is_direct_conversion_witness :
  "a.mp3" <> "a_rerecord.wav" /\
  match @decoded demo_externals demo_world "a.mp3" with
  | Some fr =>
      fst (@rerecord_core demo_externals 100 "a.mp3" "a_rerecord.wav" "default" ""
             (fun _ => []) demo_world) = Ok tt /\
      fs (snd (@rerecord_core demo_externals 100 "a.mp3" "a_rerecord.wav" "default" ""
                 (fun _ => []) demo_world)) =
        <[ "a_rerecord.wav" := Wav (direct_wav fr) ]> (fs demo_world) /\
      model_loads (snd (@rerecord_core demo_externals 100 "a.mp3" "a_rerecord.wav" "default" ""
                 (fun _ => []) demo_world)) = model_loads demo_world
  | None =>
      fst (@rerecord_core demo_externals 100 "a.mp3" "a_rerecord.wav" "default" ""
             (fun _ => []) demo_world) = Raise (CalledProcessError 1)
  end.
Proof.
  split; [discriminate|].
  apply (@rerecord_output_is_direct_conversion demo_externals 100 "a.mp3" "a_rerecord.wav"
           "default" "" (fun _ => []) demo_world).
  - discriminate.
  - apply surjective_pairing.
  - vm_compute. discriminate.
Defined.

Lemma rerecord_hangs_on_long_input_witness :
  (PIPE_CAPACITY < @pcm_bytes (@decoded demo_externals demo_world "b.mp3"))%N /\
  @device_opens demo_externals "default" = true /\
  fst (@rerecord_core demo_externals 1000 "b.mp3" "b_rerecord.wav" "default" ""
         (fun _ => []) demo_world) = Hang.
Proof.
  split; [apply N.ltb_lt; vm_compute; reflexivity|]. split; [reflexivity|].
  apply (@rerecord_hangs_on_long_input demo_externals); [apply N.ltb_lt; vm_compute; reflexivity|reflexivity|reflexivity].
Defined.

Lemma rerecord_terminates_witness :
  (@pcm_bytes (@decoded demo_externals demo_world "a.mp3") <= PIPE_CAPACITY)%N /\
  finished (fst (@rerecord_core demo_externals 801 "a.mp3" "a_rerecord.wav" "default" ""
                   (fun _ => []) demo_world)) = true.
Proof.
  split; [apply N.leb_le; vm_compute; reflexivity|].
  apply (@rerecord_terminates demo_externals);
    [apply N.leb_le; vm_compute; reflexivity|vm_compute; lia].
Defined.

Lemma capture_while_spec_witness :
  exists k,
    clock (snd (@capture_while demo_externals 5 (mkPlayer 0 800) "default" "t.wav"
                  (set_fs {[ "t.wav" := Wav (mkWav 44100 2 PCM_24 []) ]} demo_world))) =
      (0 + BLOCK_FRAMES * N.of_nat k)%N /\ k = 1.
Proof.
  destruct (@capture_while_spec demo_externals 5 (mkPlayer 0 800) "default" "t.wav"
              (mkWav 44100 2 PCM_24 [])
              (set_fs {[ "t.wav" := Wav (mkWav 44100 2 PCM_24 []) ]} demo_world)
              (snd (@capture_while demo_externals 5 (mkPlayer 0 800) "default" "t.wav"
                      (set_fs {[ "t.wav" := Wav (mkWav 44100 2 PCM_24 []) ]} demo_world))))
    as (k & Hc & Hfs & Hal & Hd).
  - reflexivity.
  - vm_compute. reflexivity.
  - exists k. split; [exact Hc|].
    destruct k as [|[|k]]; [vm_compute in Hd; discriminate|reflexivity|].
    specialize (Hal 1 ltac:(lia)). vm_compute in Hal. discriminate.
Defined.

End Capture.
