(* ===== verification/Scrub.v ===== *)
(** * The neural stage: [neural_scrub]

    [neural_scrub] (src/audio_scrubber.py, lines 45-72; the GUI's copy,
    src/audio_scrubber_gui.py, lines 43-62) loads the 48 kHz EnCodec
    model, sets its target bandwidth, reads the input WAV, puts it
    channels first, converts it to the model's rate and channel count,
    encodes and decodes it, puts it back frames first and writes it as
    24-bit PCM at 48 kHz.

    [scrub_wav] is the pure function from the input file's contents to
    the file written; [neural_scrub_refines] shows the stateful handler
    implements it, loading the model once per call.  The 48 kHz model
    accepts the bandwidths 3, 6, 12 and 24 kbps only: the 1.5 kbps the
    GUI offers (and the command-line comment lists) always raises. *)

From Stdlib Require Import String ZArith NArith Lia.
From stdpp Require Import base gmap strings list.
From S2P Require Import Prelude PyStr World.

Module Scrub.
Import World.

(** ** The model's constants *)

(** [EncodecModel.encodec_model_48khz()]: [model.sample_rate]. *)
Definition MODEL_SR : Z := 48000.
(** [model.channels]. *)
Definition MODEL_CHANNELS : nat := 2.
(** [model.target_bandwidths], in tenths of kbps: 3.0, 6.0, 12.0, 24.0. *)
Definition MODEL_BANDWIDTHS : list Z := [30; 60; 120; 240]%Z.

(** ** Arrays *)

(** What [sf.read] returns: a 1-D array for a mono file, a
    frames-by-channels array otherwise. *)
Inductive ndarray :=
  | Arr1 (xs : list Z)
  | Arr2 (ch : nat) (rows : list frame).

(** [m.transpose(0, 1)] of a matrix with [cols] columns. *)
Definition transpose (cols : nat) (m : list (list Z)) : list (list Z) :=
  map (fun j => map (fun r => nth j r 0%Z) m) (seq 0 cols).

(** The number of columns of a matrix given as its rows. *)
Definition row_len (m : list (list Z)) : nat :=
  match m with [] => 0 | r :: _ => length r end.

(** The array [sf.read] returns for a WAV file ([always_2d=False]). *)
Definition read_array (v : wav) : ndarray :=
  if (wav_channels v =? 1)%nat
  then Arr1 (map (fun f => nth 0 f 0%Z) (wav_frames v))
  else Arr2 (wav_channels v) (wav_frames v).

(** [wav = torch.from_numpy(data).float(); if wav.ndim == 1:
    wav = wav.unsqueeze(0) else: wav = wav.transpose(0, 1)]
    (lines 53-57). *)
Definition channels_first (data : ndarray) : list (list Z) :=
  match data with
  | Arr1 xs => [xs]
  | Arr2 ch rows => transpose ch rows
  end.

(** The message of [set_target_bandwidth]'s [ValueError]. *)
Definition bandwidth_error (bw : Z) : exn :=
  ValueError "This model doesn't support the bandwidth. Select one of [3.0, 6.0, 12.0, 24.0].".

Section Scrub.
Context `{Externals}.

(** [convert_audio(wav, sr, model.sample_rate, model.channels)] of
    [encodec.utils] with [target_channels = 2] (line 60): mono is
    expanded to two equal channels, stereo kept, anything else fails
    the assertion; then every channel is resampled. *)
Definition convert_audio (wav : list (list Z)) (sr target_sr : Z)
    : outcome (list (list Z)) :=
  match wav with
  | [x] => Ok (map (resample sr target_sr) [x; x])
  | [x; y] => Ok (map (resample sr target_sr) [x; y])
  | _ => Raise (AssertionError "Audio must be mono or stereo.")
  end.

(** The pure content of [neural_scrub]: the WAV written for an input
    WAV [v] at bandwidth [bw], or the exception raised. *)
Definition scrub_wav (bw : Z) (v : wav) : outcome wav :=
  if bool_decide (bw ∈ MODEL_BANDWIDTHS) then
    match convert_audio (channels_first (read_array v)) (wav_rate v) MODEL_SR with
    | Ok wav =>
        let dec := encodec_roundtrip bw wav in
        Ok (mkWav MODEL_SR (length dec) PCM_24 (transpose (row_len dec) dec))
    | Raise e => Raise e
    | Hang => Hang
    end
  else Raise (bandwidth_error bw).

(** [model = EncodecModel.encodec_model_48khz()] (line 47): a new
    model is built on every call. *)
Definition load_model : W unit :=
  modify (fun w => mkWorld (fs w) (clock w) (S (model_loads w)) (log w)).

(** [model.set_target_bandwidth(bw)] (line 48). *)
Definition set_target_bandwidth (bw : Z) : W unit :=
  if bool_decide (bw ∈ MODEL_BANDWIDTHS) then ret tt else raise (bandwidth_error bw).

(** [data, sr = sf.read(input_wav)] (line 51). *)
Definition sf_read (path : string) : W (ndarray * Z) :=
  fun w =>
    match fs w !! path with
    | Some (Wav v) => (Ok (read_array v, wav_rate v), w)
    | _ => (Raise (LibsndfileError path), w)
    end.

(** Lines 48-71 from the bandwidth on: set it, read the input, put it
    channels first, convert, encode and decode, write it frames first.
    [unsqueeze(0)] and [squeeze(0)] add and remove the batch dimension
    around the codec and are left implicit. *)
Definition scrub_body (input output : string) (bw : Z) : W unit :=
  set_target_bandwidth bw ;;
  r <- sf_read input ;;
  wav <- lift_outcome (convert_audio (channels_first (fst r)) (snd r) MODEL_SR) ;;
  let dec := encodec_roundtrip bw wav in
  sf_write output (transpose (row_len dec) dec) (length dec) MODEL_SR PCM_24.

(** [neural_scrub(input_wav, output_wav)] of the command-line script
    (lines 45-72), with its bandwidth [bw] and its messages. *)
Definition neural_scrub_core (input output : string) (bw : Z)
    (start_msg : string) (end_msgs : list string) : W unit :=
  print start_msg ;;
  load_model ;;
  scrub_body input output bw ;;
  for_each end_msgs print.

Definition neural_scrub (bw : Z) (input output : string) : W unit :=
  neural_scrub_core input output bw
    ("Applying neural codec scrub to " ^^ input ^^ "...")
    ["Neural scrub complete: " ^^ output]%string.
End Scrub.

(** ** Lemmas on the layout *)

Lemma map_nth_seq {A} (l : list A) d : map (fun j => nth j l d) (seq 0 (length l)) = l.
Proof.
  apply (nth_ext _ _ d d); [by rewrite length_map, length_seq|].
  intros n Hn. rewrite length_map, length_seq in Hn.
  rewrite (nth_indep _ d (nth 0 l d)) by (by rewrite length_map, length_seq).
  rewrite (map_nth (fun j => nth j l d)), seq_nth by done. done.
Qed.

(** Transposing a matrix with [c] columns twice gives it back. *)
Lemma transpose_involutive c m :
  Forall (fun r => length r = c) m -> transpose (length m) (transpose c m) = m.
Proof.
  intros Hrect. unfold transpose.
  rewrite <- (map_nth_seq m []) at 2. apply map_ext_in. intros i Hi.
  apply in_seq in Hi. rewrite map_map.
  assert (Hr : length (nth i m []) = c) by (apply Forall_nth; [exact Hrect|lia]).
  rewrite <- (map_nth_seq (nth i m []) 0%Z), Hr. apply map_ext. intros j.
  transitivity (nth i (map (fun r => nth j r 0%Z) m) ((fun r => nth j r 0%Z) [])).
  - f_equal. by destruct j.
  - exact (map_nth (fun r => nth j r 0%Z) m [] i).
Qed.

Lemma length_transpose c m : length (transpose c m) = c.
Proof. unfold transpose. by rewrite length_map, length_seq. Qed.

Lemma row_len_transpose c m : 0 < c -> row_len (transpose c m) = length m.
Proof. destruct c; [lia|]. intros _. unfold transpose. simpl. by rewrite length_map. Qed.

(** ** The handler implements [scrub_wav] *)

Section Refinement.
Context `{Externals}.

Lemma sf_write_wav path data ch rate st w :
  PyStr.endswith (PyStr.lower path) ".wav" = true ->
  sf_write path data ch rate st w =
    (Ok tt, set_fs (<[path := Wav (mkWav rate ch st data)]> (fs w)) w).
Proof. unfold sf_write. by intros ->. Qed.
End Refinement.

Section BodySpec.
Context `{Externals}.

(** [scrub_body] runs [scrub_wav] on the input and writes its result. *)
Lemma scrub_body_spec input output bw v w :
  fs w !! input = Some (Wav v) ->
  PyStr.endswith (PyStr.lower output) ".wav" = true ->
  scrub_body input output bw w =
    match scrub_wav bw v with
    | Ok v' => (Ok tt, set_fs (<[output := Wav v']> (fs w)) w)
    | Raise e => (Raise e, w)
    | Hang => (Hang, w)
    end.
Proof.
  intros Hin Hwav. unfold scrub_body, scrub_wav, set_target_bandwidth.
  case_bool_decide; [|done]. rewrite bind_ret.
  rewrite (bind_ok _ _ _ (read_array v, wav_rate v) w) by (unfold sf_read; by rewrite Hin).
  cbn [fst snd]. unfold bind at 1, lift_outcome.
  destruct (convert_audio _ _ _) as [wav|e|]; [|done|done].
  by rewrite sf_write_wav.
Qed.

Lemma scrub_wav_not_hang bw v : scrub_wav bw v <> Hang.
Proof. unfold scrub_wav, convert_audio. case_bool_decide; [repeat case_match|]; discriminate. Qed.

(** A run of the whole handler: its result is [scrub_wav]'s, it loads
    the model once, and it writes the output only on success. *)
Lemma neural_scrub_core_run input output bw msg msgs v w :
  fs w !! input = Some (Wav v) ->
  PyStr.endswith (PyStr.lower output) ".wav" = true ->
  exists w', neural_scrub_core input output bw msg msgs w =
    (match scrub_wav bw v with Ok _ => Ok tt | Raise e => Raise e | Hang => Hang end, w') /\
    model_loads w' = S (model_loads w) /\
    fs w' = match scrub_wav bw v with Ok v' => <[output := Wav v']> (fs w) | _ => fs w end.
Proof.
  intros Hin Hwav. unfold neural_scrub_core. cbn [bind print modify load_model].
  match goal with |- context [bind (scrub_body input output bw) _ ?x] => set (w1 := x) end.
  pose proof (scrub_body_spec input output bw v w1 Hin Hwav) as Hb.
  destruct (scrub_wav bw v) as [v'|e|] eqn:Hsw.
  - rewrite (bind_ok _ _ _ _ _ Hb).
    destruct (for_each_print msgs (set_fs (<[output := Wav v']> (fs w1)) w1))
      as (w2 & Hp & Hfs & _ & Hm).
    rewrite Hp. by exists w2.
  - rewrite (bind_raise _ _ _ _ _ Hb). by exists w1.
  - by destruct (scrub_wav_not_hang bw v).
Qed.
End BodySpec.

(** C9: [neural_scrub] on an input WAV [v] implements [scrub_wav]: it
      loads the model once, and either writes exactly [scrub_wav bw v] to
      the output and changes no other file, or raises the exception
      [scrub_wav] gives and changes no file. *)
Theorem neural_scrub_refines `{Externals} input output bw msg msgs v w r w' :
  fs w !! input = Some (Wav v) ->
  PyStr.endswith (PyStr.lower output) ".wav" = true ->
  neural_scrub_core input output bw msg msgs w = (r, w') ->
  model_loads w' = S (model_loads w) /\
  match scrub_wav bw v with
  | Ok v' => r = Ok tt /\ fs w' = <[output := Wav v']> (fs w)
  | Raise e => r = Raise e /\ fs w' = fs w
  | Hang => False
  end.
Proof.
  intros Hin Hwav Hrun.
  destruct (neural_scrub_core_run input output bw msg msgs v w Hin Hwav) as (w1 & E & Hm & Hfs).
  rewrite E in Hrun. injection Hrun as <- <-. split; [exact Hm|].
  pose proof (scrub_wav_not_hang bw v). by destruct (scrub_wav bw v).
Qed.

(** C10: [set_target_bandwidth] of the 48 kHz model accepts 3, 6, 12 and
    24 kbps only; at any other bandwidth, such as the 1.5 kbps the GUI
    offers, [neural_scrub] raises [ValueError] right after loading the
    model, whatever the input. *)
Theorem neural_scrub_rejects_bandwidth `{Externals} input output bw msg msgs w :
  bw ∉ MODEL_BANDWIDTHS ->
  neural_scrub_core input output bw msg msgs w =
    (Raise (bandwidth_error bw),
     mkWorld (fs w) (clock w) (S (model_loads w)) (log w ++ [msg])).
Proof.
  intros Hbw. unfold neural_scrub_core, scrub_body, set_target_bandwidth.
  rewrite bool_decide_false by done. reflexivity.
Qed.

(** C11: the layout changes of [neural_scrub] undo each other: with a
    codec and a resampler that change nothing, a stereo input is written
    back frame for frame and channel for channel (frames first at 48 kHz,
    24-bit); the two [transpose(0, 1)] neither reorder frames nor swap
    channels. *)
Theorem scrub_wav_layout_roundtrip `{Externals} bw v :
  (forall a b x, resample a b x = x) ->
  (forall b m, encodec_roundtrip b m = m) ->
  bw ∈ MODEL_BANDWIDTHS ->
  wav_channels v = 2 ->
  Forall (fun f => length f = 2) (wav_frames v) ->
  scrub_wav bw v = Ok (mkWav MODEL_SR 2 PCM_24 (wav_frames v)).
Proof.
  intros Hres Hcodec Hbw Hch Hrect. unfold scrub_wav, read_array.
  rewrite bool_decide_true by done. rewrite Hch. cbn -[transpose].
  assert (Ht : transpose 2 (wav_frames v) =
               [map (fun r => nth 0 r 0%Z) (wav_frames v);
                map (fun r => nth 1 r 0%Z) (wav_frames v)]) by reflexivity.
  rewrite Ht. cbn [convert_audio map]. rewrite !Hres, Hcodec, <- Ht.
  rewrite length_transpose, row_len_transpose by lia.
  by rewrite transpose_involutive.
Qed.

(** ** Witnesses *)

Lemma neural_scrub_rejects_bandwidth_witness :
  (15%Z ∉ MODEL_BANDWIDTHS) /\
  fst (@neural_scrub_core demo_externals "a_rerecord.wav" "a_clean.wav" 15 "" [] demo_world) =
    Raise (bandwidth_error 15).
Proof.
  split; [vm_compute; by intros Hin%list_elem_of_In; repeat destruct Hin as [?|Hin]|].
  rewrite (@neural_scrub_rejects_bandwidth demo_externals); [done|].
  vm_compute. by intros Hin%list_elem_of_In; repeat destruct Hin as [?|Hin].
Defined.

(** The demo collaborators with a codec and a resampler that change
    nothing. *)
Definition identity_codec_externals : Externals := {|
  ffmpeg_decode := @ffmpeg_decode demo_externals;
  decode_time := @decode_time demo_externals;
  device_opens := @device_opens demo_externals;
  device_block := @device_block demo_externals;
  resample a b x := x;
  encodec_roundtrip b m := m
  |}.

Lemma scrub_wav_layout_roundtrip_witness :
  @scrub_wav identity_codec_externals 120 (mkWav 44100 2 PCM_16 [[1; 2]; [3; 4]; [5; 6]]%Z) =
    Ok (mkWav MODEL_SR 2 PCM_24 [[1; 2]; [3; 4]; [5; 6]]%Z).
Proof.
  apply (@scrub_wav_layout_roundtrip identity_codec_externals); try done.
  - vm_compute. apply list_elem_of_In. simpl. tauto.
  - repeat constructor.
Defined.

(** A stereo WAV at 44.1 kHz in the file [t.wav] of the demo world. *)
Definition demo_input : wav := mkWav 44100 2 PCM_16 [[1; 2]; [3; 4]]%Z.

Definition demo_scrub_world : world :=
    set_fs (<["t.wav" := Wav demo_input]> (fs demo_world)) demo_world.

Lemma neural_scrub_refines_witness :
    model_loads (snd (@neural_scrub_core demo_externals "t.wav" "t_clean.wav" 120 "" []
                        demo_scrub_world)) = 1 /\
    match @scrub_wav demo_externals 120 demo_input with
    | Ok v' =>
        fst (@neural_scrub_core demo_externals "t.wav" "t_clean.wav" 120 "" [] demo_scrub_world)
          = Ok tt /\
        fs (snd (@neural_scrub_core demo_externals "t.wav" "t_clean.wav" 120 "" []
                   demo_scrub_world)) = <["t_clean.wav" := Wav v']> (fs demo_scrub_world)
    | Raise e =>
        fst (@neural_scrub_core demo_externals "t.wav" "t_clean.wav" 120 "" [] demo_scrub_world)
          = Raise e /\
        fs (snd (@neural_scrub_core demo_externals "t.wav" "t_clean.wav" 120 "" []
                   demo_scrub_world)) = fs demo_scrub_world
    | Hang => False
    end.
Proof.
    apply (@neural_scrub_refines demo_externals "t.wav" "t_clean.wav" 120 "" [] demo_input
             demo_scrub_world).
    - reflexivity.
    - reflexivity.
    - apply surjective_pairing.
Defined.

End Scrub.
