(* ===== verification/Batch.v ===== *)
(** * The command-line batch: [__main__] of src/audio_scrubber.py

    The script takes its file list from [sys.argv[1:]], or from
    [glob.glob("*.mp3")] when there are no arguments, exits with status 1
    when the list is empty, and otherwise runs one job per name
    (lines 75-106): it skips a name that does not end in [.mp3] (in any
    case), re-records it to [X_rerecord.wav], scrubs that into
    [X_clean.wav], and deletes the temporary file, or, when the scrub
    raises, promotes the temporary file to the final name unless that
    name already exists.  Nothing catches an exception of [rerecord]
    (the fallback conversion's [CalledProcessError]) or of [os.rename]:
    such an exception ends the whole batch with a traceback and exit
    status 1. *)

From Stdlib Require Import String ZArith NArith Lia.
From stdpp Require Import base gmap strings list.
From S2P Require Import Prelude PyStr World Capture Scrub.

Local Open Scope string_scope.

Module Batch.
Import World Capture Scrub.

(** ** Configuration *)

(** The configuration block (lines 14-17): [VIRTUAL_DEVICE =
    os.getenv("VIRTUAL_DEVICE", "default")] and [CODEC_BITRATE = 12.0]
    (in tenths of kbps); [TARGET_SR] and [TARGET_BITS] are
    [Capture.TARGET_SR] and the [PCM_24] subtype. *)
Record config := mkConfig { virtual_device : string; codec_bitrate : Z }.

Definition cli_config (env : gmap string string) : config :=
  mkConfig (default "default" (env !! "VIRTUAL_DEVICE")) 120.

(** ** [glob.glob("*.mp3")] *)

(** A name of the working directory that [*.mp3] matches: [fnmatch] is
    case-sensitive on POSIX, the leading [*] skips hidden names, and the
    pattern has no directory part. *)
Definition glob_match_mp3 (p : string) : bool :=
  PyStr.endswith p ".mp3" && negb (String.prefix "." p) &&
  bool_decide (String.index 0 "/" p = None).

(** The names [glob.glob("*.mp3")] returns, in directory order. *)
Definition glob_names (w : world) : list string :=
  filter (fun p => glob_match_mp3 p = true) (map fst (map_to_list (fs w))).

Definition glob_mp3 : W (list string) := fun w => (Ok (glob_names w), w).

(** ** One job *)

Section Job.
Context `{Externals}.

(** [try: neural_scrub(temp, final); if os.path.exists(temp):
    os.remove(temp) except Exception as e: print(...); if not
    os.path.exists(final): os.rename(temp, final)] (lines 96-103). *)
Definition scrub_or_promote (bw : Z) (temp final : string) : W unit :=
  try_except
    (neural_scrub bw temp final ;;
     b <- path_exists temp ;;
     if b then os_remove temp else ret tt)
    (fun e =>
       print ("Neural scrub failed: " ^^ exn_message e)%string ;;
       b <- path_exists final ;;
       if b then ret tt else os_rename temp final).

(** The body of [for mp3 in files] (lines 87-106). *)
Definition cli_job (fuel : nat) (cfg : config) (mp3 : string) : W unit :=
  if negb (PyStr.cli_is_mp3 mp3) then ret tt
  else
    let temp := PyStr.cli_temp_path mp3 in
    let final := PyStr.cli_final_path mp3 in
    print ("Processing " ^^ mp3 ^^ "...")%string ;;
    rerecord fuel (virtual_device cfg) mp3 temp ;;
    (if bool_decide (codec_bitrate cfg = 0%Z) then os_rename temp final
     else scrub_or_promote (codec_bitrate cfg) temp final) ;;
    print ("Done! → " ^^ final)%string.

(** The script's [__main__] (lines 75-106) with arguments [argv]. *)
Definition cli_main (fuel : nat) (cfg : config) (argv : list string) : W unit :=
  files <- (match argv with [] => glob_mp3 | _ => ret argv end) ;;
  match files with
  | [] => print "No MP3 files found or provided." ;; raise (SystemExit 1)
  | _ => for_each files (cli_job fuel cfg)
  end.
End Job.

(** The exit status of the process: 0 when [__main__] returns, the code
    of [sys.exit], 1 for an uncaught exception; [None] when it never
    ends. *)
Definition exit_status (r : outcome unit) : option Z :=
  match r with
  | Ok _ => Some 0%Z
  | Raise (SystemExit n) => Some n
  | Raise _ => Some 1%Z
  | Hang => None
  end.

(** ** Lemmas *)

Section JobLemmas.
Context `{Externals}.

Lemma scrub_wav_no_exit bw v e : scrub_wav bw v = Raise e -> is_Exception e = true.
Proof.
  unfold scrub_wav. case_bool_decide; [|by intros [= <-]].
  unfold convert_audio. repeat case_match; intros Hr; simplify_eq; done.
Qed.

Lemma path_exists_run p w : path_exists p w = (Ok (bool_decide (is_Some (fs w !! p))), w).
Proof. reflexivity. Qed.

(** The [try]/[except] around the neural stage, on a temporary file
    holding the WAV [v]. *)
Lemma scrub_or_promote_spec bw temp final v w :
  temp <> final ->
  fs w !! temp = Some (Wav v) ->
  PyStr.endswith (PyStr.lower final) ".wav" = true ->
  exists w', scrub_or_promote bw temp final w = (Ok tt, w') /\
    model_loads w' = S (model_loads w) /\
    fs w' = match scrub_wav bw v with
            | Ok v' => <[final := Wav v']> (delete temp (fs w))
            | _ => match fs w !! final with
                   | Some _ => fs w
                   | None => <[final := Wav v]> (delete temp (fs w))
                   end
            end.
Proof.
  intros Hne Htemp Hwav. unfold scrub_or_promote, neural_scrub.
  set (msg := ("Applying neural codec scrub to " ^^ temp ^^ "...")%string).
  set (msgs := ["Neural scrub complete: " ^^ final]%string).
  destruct (neural_scrub_core_run temp final bw msg msgs v w Htemp Hwav) as (w1 & E & Hm & Hfs).
  destruct (scrub_wav bw v) as [v'|e|] eqn:Hsw; [| |by destruct (scrub_wav_not_hang bw v)].
  - assert (Ht1 : fs w1 !! temp = Some (Wav v))
      by (rewrite Hfs, lookup_insert_ne by done; exact Htemp).
    unfold try_except. rewrite (bind_ok _ _ _ _ _ E). cbv beta.
    rewrite (bind_ok _ _ _ _ _ (path_exists_run temp w1)).
    rewrite bool_decide_true by (rewrite Ht1; done).
    unfold os_remove. rewrite Ht1. eexists. split; [done|]. split; [done|].
    simpl. rewrite Hfs. by apply delete_insert_ne.
  - assert (Hb : bind (neural_scrub_core temp final bw msg msgs)
                   (fun _ => b <- path_exists temp ;; if b then os_remove temp else ret tt) w
                 = (Raise e, w1)) by exact (bind_raise _ _ _ _ _ E).
    rewrite (try_except_catch _ _ _ _ _ Hb (scrub_wav_no_exit _ _ _ Hsw)).
    cbn [bind print modify path_exists fs].
    rewrite Hfs. destruct (fs w !! final) eqn:Hf.
    + rewrite bool_decide_true by done. by eexists.
    + rewrite bool_decide_false by (by intros [? ?]).
      unfold os_rename. cbn [fs]. rewrite Htemp, bool_decide_false by done.
      by eexists.
Qed.
End JobLemmas.

(** ** The job *)

Section JobPrefix.
Context `{Externals}.

(** The first half of a job on [base.mp3]: the job prints, re-records
    the input into [base_rerecord.wav] (the direct conversion, by
    [Capture.rerecord_core_run]) and goes on with the
    bitrate branch from there. *)
Lemma cli_job_rerecorded fuel cfg base fr w :
  String.index 0 ".mp3" (base ^^ ".mp3") = Some (String.length base) ->
  decoded w (base ^^ ".mp3") = Some fr ->
  capture_ends fuel (virtual_device cfg) (pcm_bytes (Some fr)) ->
  exists w2,
    fs w2 = <[base ^^ "_rerecord.wav" := Wav (direct_wav fr)]> (fs w) /\
    model_loads w2 = model_loads w /\
    cli_job fuel cfg (base ^^ ".mp3") w =
      bind (if bool_decide (codec_bitrate cfg = 0%Z)
            then os_rename (base ^^ "_rerecord.wav") (base ^^ "_clean.wav")
            else scrub_or_promote (codec_bitrate cfg) (base ^^ "_rerecord.wav")
                   (base ^^ "_clean.wav"))
           (fun _ => print ("Done! → " ^^ (base ^^ "_clean.wav"))) w2.
Proof.
  intros Hidx Hdec Hc.
  assert (Ht : PyStr.cli_temp_path (base ^^ ".mp3") = base ^^ "_rerecord.wav")
    by (apply PyStr.replace_stem; done).
  assert (Hf : PyStr.cli_final_path (base ^^ ".mp3") = base ^^ "_clean.wav")
    by (apply PyStr.replace_stem; done).
  destruct (PyStr.cli_names_distinct base) as (Hmt & _ & _).
  assert (Hmp3 : PyStr.cli_is_mp3 (base ^^ ".mp3") = true)
    by (apply PyStr.endswith_lower_app; reflexivity).
  unfold cli_job. rewrite Hmp3, Ht, Hf. cbn [negb bind print modify].
  match goal with |- context [bind (rerecord fuel _ _ _) _ ?x] => set (w1 := x) end.
  assert (Hd1 : decoded w1 (base ^^ ".mp3") = Some fr) by exact Hdec.
  unfold rerecord.
  destruct (rerecord_core_run fuel (base ^^ ".mp3") (base ^^ "_rerecord.wav") (virtual_device cfg)
              ("Re-recording " ^^ (base ^^ ".mp3") ^^ " via loopback...")
              (fun e => ["Error during re-recording: " ^^ exn_message e;
                         "Falling back to direct conversion for simulation..."]) w1 Hmt)
    as (w2 & E1 & Hfs2 & Hm2); [by rewrite Hd1|].
  rewrite Hd1 in E1, Hfs2.
  exists w2. split; [exact Hfs2|]. split; [exact Hm2|].
  by rewrite (bind_ok _ _ _ _ _ E1).
Qed.

Lemma clean_wav_suffix base :
  PyStr.endswith (PyStr.lower (base ^^ "_clean.wav")) ".wav" = true.
Proof.
  rewrite PyStr.lower_app.
  change (PyStr.lower "_clean.wav") with ("_clean" ^^ ".wav").
  rewrite <- PyStr.append_assoc. apply PyStr.endswith_app.
Qed.
End JobPrefix.

(** C12: one command-line job on [base.mp3], when the names derive as
    the spec says, [ffmpeg] decodes the input to [fr], the capture loop
    can end ([capture_ends]: the decoded input fits in the 64 KiB pipe
    and the fuel outlasts [ffmpeg], or the device does not open, for an
    input of any length; in the one remaining case, a longer input on a
    working device, the job never returns by C2), and the bitrate is
    not zero: the job returns, loads the model once, and
    - when the scrub of the fallback WAV succeeds, [base_clean.wav] holds
      its result and [base_rerecord.wav] is gone;
    - when it raises and [base_clean.wav] does not exist, the fallback
      WAV is moved to [base_clean.wav];
    - when it raises and [base_clean.wav] already exists, that file is
      kept as it was and the new fallback WAV stays in
      [base_rerecord.wav].
    No other file changes. *)
Theorem cli_job_spec `{Externals} fuel cfg base fr w :
  String.index 0 ".mp3" (base ^^ ".mp3") = Some (String.length base) ->
  decoded w (base ^^ ".mp3") = Some fr ->
  capture_ends fuel (virtual_device cfg) (pcm_bytes (Some fr)) ->
  codec_bitrate cfg <> 0%Z ->
  exists w', cli_job fuel cfg (base ^^ ".mp3") w = (Ok tt, w') /\
    model_loads w' = S (model_loads w) /\
    fs w' = match scrub_wav (codec_bitrate cfg) (direct_wav fr) with
            | Ok v' => <[base ^^ "_clean.wav" := Wav v']> (delete (base ^^ "_rerecord.wav") (fs w))
            | _ =>
                match fs w !! (base ^^ "_clean.wav") with
                | Some _ => <[base ^^ "_rerecord.wav" := Wav (direct_wav fr)]> (fs w)
                | None => <[base ^^ "_clean.wav" := Wav (direct_wav fr)]>
                            (delete (base ^^ "_rerecord.wav") (fs w))
                end
            end.
Proof.
  intros Hidx Hdec Hc Hbw.
  destruct (cli_job_rerecorded fuel cfg base fr w Hidx Hdec Hc)
    as (w2 & Hfs2 & Hm2 & ->).
  destruct (PyStr.cli_names_distinct base) as (_ & _ & Htf).
  rewrite bool_decide_false by done.
  destruct (scrub_or_promote_spec (codec_bitrate cfg) _ _ (direct_wav fr) w2 Htf
              ltac:(by rewrite Hfs2, lookup_insert_eq) (clean_wav_suffix base))
    as (w3 & E3 & Hm3 & Hfs3).
  rewrite (bind_ok _ _ _ _ _ E3). eexists. split; [done|].
  cbn [fs model_loads]. rewrite Hm3, Hm2. split; [done|].
  rewrite Hfs3, Hfs2, lookup_insert_ne by done.
  destruct (scrub_wav _ _); [by rewrite delete_insert_eq| |];
    (destruct (fs w !! _); [done|by rewrite delete_insert_eq]).
Qed.

(** C15: with the bitrate set to zero the neural stage is skipped:
    whenever the capture loop can end ([capture_ends], as in C12: an
    input that fits in the pipe, or a device that does not open,
    whatever the input's length), the job returns, moves the fallback
    WAV to [base_clean.wav] (replacing a file of that name), leaves no
    [base_rerecord.wav] and never loads the model. *)
Theorem cli_job_zero_bitrate `{Externals} fuel cfg base fr w :
  String.index 0 ".mp3" (base ^^ ".mp3") = Some (String.length base) ->
  decoded w (base ^^ ".mp3") = Some fr ->
  capture_ends fuel (virtual_device cfg) (pcm_bytes (Some fr)) ->
  codec_bitrate cfg = 0%Z ->
  exists w', cli_job fuel cfg (base ^^ ".mp3") w = (Ok tt, w') /\
    model_loads w' = model_loads w /\
    fs w' = <[base ^^ "_clean.wav" := Wav (direct_wav fr)]> (delete (base ^^ "_rerecord.wav") (fs w)).
Proof.
  intros Hidx Hdec Hc Hbw.
  destruct (cli_job_rerecorded fuel cfg base fr w Hidx Hdec Hc)
    as (w2 & Hfs2 & Hm2 & ->).
  destruct (PyStr.cli_names_distinct base) as (_ & _ & Htf).
  rewrite bool_decide_true by done. unfold bind at 1, os_rename.
  rewrite Hfs2, lookup_insert_eq, bool_decide_false by done.
  eexists. split; [done|]. split; [done|]. cbn [fs]. by rewrite delete_insert_eq.
Qed.

(** ** The batch *)

Section Abort.
Context `{Externals}.

(** A job on a file [ffmpeg] cannot decode raises the fallback's
    [CalledProcessError]; the job does not catch it. *)
Lemma cli_job_undecodable fuel cfg mp3 w :
  PyStr.cli_is_mp3 mp3 = true -> decoded w mp3 = None ->
  PyStr.cli_temp_path mp3 <> mp3 -> N.to_nat (decode_time 0) < fuel ->
  fst (cli_job fuel cfg mp3 w) = Raise (CalledProcessError 1).
Proof.
  intros Hmp3 Hdec Hne Hfuel. unfold cli_job. rewrite Hmp3. cbn [negb bind print modify].
  match goal with |- context [bind (rerecord fuel _ _ _) _ ?x] => set (w1 := x) end.
  assert (Hd1 : decoded w1 mp3 = None) by exact Hdec.
  unfold rerecord.
  destruct (rerecord_core_run fuel mp3 (PyStr.cli_temp_path mp3) (virtual_device cfg)
              ("Re-recording " ^^ mp3 ^^ " via loopback...")
              (fun e => ["Error during re-recording: " ^^ exn_message e;
                         "Falling back to direct conversion for simulation..."]) w1
              (not_eq_sym Hne))
    as (w2 & E1 & _ & _); [rewrite Hd1; left; split; [done|exact Hfuel]|].
  rewrite Hd1 in E1. by rewrite (bind_raise _ _ _ _ _ E1).
Qed.
End Abort.

(** C13: nothing in [__main__] catches the fallback's
    [CalledProcessError]: when the jobs before it have run, a file
    [ffmpeg] cannot decode ends the whole run with that exception (exit
    status 1), in the state its own job left, so none of the files after
    it is processed. *)
Theorem cli_main_aborts_batch `{Externals} fuel cfg pre bad post w w1 :
  for_each pre (cli_job fuel cfg) w = (Ok tt, w1) ->
  PyStr.cli_is_mp3 bad = true ->
  decoded w1 bad = None ->
  PyStr.cli_temp_path bad <> bad ->
  N.to_nat (decode_time 0) < fuel ->
  cli_main fuel cfg (pre ++ bad :: post) w =
    (Raise (CalledProcessError 1), snd (cli_job fuel cfg bad w1)).
Proof.
  intros Hpre Hmp3 Hdec Hne Hfuel. unfold cli_main.
  assert (Hxs : exists (x : string) xs, (pre ++ bad :: post)%list = x :: xs)
    by (destruct pre as [|y ys]; [by exists bad, post|by exists y, (ys ++ bad :: post)%list]).
  destruct Hxs as (x & xs & Hxs). rewrite Hxs, bind_ret, <- Hxs.
  rewrite for_each_app, (bind_ok _ _ _ _ _ Hpre). simpl (for_each (bad :: post) _).
  pose proof (cli_job_undecodable fuel cfg bad w1 Hmp3 Hdec Hne Hfuel) as Hr.
  destruct (cli_job fuel cfg bad w1) as [r w2] eqn:E. simpl in Hr. subst r.
  by rewrite (bind_raise _ _ _ _ _ E).
Qed.

(** C14: with no arguments and no [*.mp3] file in the directory, the
    script prints its message and exits with status 1, touching no file. *)
Theorem cli_main_no_files `{Externals} fuel cfg w :
  glob_names w = [] ->
  exit_status (fst (cli_main fuel cfg [] w)) = Some 1%Z /\
  fs (snd (cli_main fuel cfg [] w)) = fs w.
Proof. intros Hg. unfold cli_main. cbn [bind glob_mp3]. by rewrite Hg. Qed.

(** ** Witnesses *)

Lemma cli_job_spec_witness :
  exists w', @cli_job demo_externals 1000 (mkConfig "default" 120) ("a" ^^ ".mp3") demo_world
               = (Ok tt, w') /\ model_loads w' = 1.
Proof.
  destruct (@cli_job_spec demo_externals 1000 (mkConfig "default" 120) "a" (repeat [1; 2]%Z 100)
              demo_world) as (w' & E & Hm & _);
    [reflexivity|reflexivity
    |left; split; [apply N.leb_le|apply Nat.ltb_lt]; vm_compute; reflexivity|done|].
  exists w'. split; [exact E|]. by rewrite Hm.
Defined.

(** A 9000-frame input, longer than the pipe holds, on a device that
    does not open. *)
Lemma cli_job_zero_bitrate_witness :
  exists w', @cli_job demo_externals 1000 (mkConfig "nodev" 0) ("b" ^^ ".mp3") demo_world
               = (Ok tt, w') /\ model_loads w' = 0 /\
    fs w' = <["b" ^^ "_clean.wav" := Wav (direct_wav (repeat [1; 2]%Z (9 * 1000)))]>
              (delete ("b" ^^ "_rerecord.wav") (fs demo_world)).
Proof.
  destruct (@cli_job_zero_bitrate demo_externals 1000 (mkConfig "nodev" 0) "b"
              (repeat [1; 2]%Z (9 * 1000)) demo_world) as (w' & E & Hm & Hfs);
    [reflexivity|vm_compute; reflexivity|right; reflexivity|done|].
  exists w'. split; [exact E|]. by rewrite Hm.
Defined.

Lemma cli_main_aborts_batch_witness :
  fst (@cli_main demo_externals 1000 (mkConfig "default" 120) (["a.mp3"] ++ "c.mp3" :: ["b.mp3"])
         demo_world) = Raise (CalledProcessError 1).
Proof.
  rewrite (@cli_main_aborts_batch demo_externals 1000 (mkConfig "default" 120) ["a.mp3"] "c.mp3"
             ["b.mp3"] demo_world
             (snd (@for_each _ _ ["a.mp3"] (@cli_job demo_externals 1000 (mkConfig "default" 120))
                     demo_world))).
  - reflexivity.
  - vm_compute. reflexivity.
  - reflexivity.
  - vm_compute. reflexivity.
  - vm_compute. discriminate.
  - vm_compute. lia.
Defined.

Lemma cli_main_no_files_witness :
  exit_status (fst (@cli_main demo_externals 1000 (mkConfig "default" 120) [] (set_fs ∅ demo_world)))
    = Some 1%Z.
Proof. apply (@cli_main_no_files demo_externals). reflexivity. Defined.

End Batch.
