(* ===== verification/Gui.v ===== *)
(** * The GUI: [AudioScrubberApp] (src/audio_scrubber_gui.py)

    The application keeps its file list in the Python list [self.files],
    mirrored by the list box [self.file_list]; [add_files] appends names
    not yet in the list, [clear_files] rebinds [self.files] to a new
    empty list.  [start_processing] sets [processing] and starts
    [process_loop] on a worker thread, which takes [total] (line 142),
    then iterates over the list object [self.files] names at line 143,
    reads the device and bitrate fields at every file, runs the GUI's
    job, and at the end resets [processing].

    The Python heap of list objects is explicit ([heap], [files] names
    the object [self.files] is bound to), so the aliasing between the
    loop's iterator and the user's later [add_files] and [clear_files]
    is modelled: [gui_step] interleaves the user's actions with the
    worker's steps (line 142, line 143, then one step per file).  The widgets themselves (layout, progress bar
    drawing, dialogs) are reduced to the values they show.

    The lemmas establish [app_inv] on every reachable state
    ([reachable_inv]); the theorems C16-C21 derive from it the state
    invariant, the effect of Clear and Add during a batch, the GUI
    job's contract, and two concrete runs on the demonstration world:
    progress at 200% and a [ZeroDivisionError] on [i / total]. *)

From Stdlib Require Import String Ascii ZArith NArith QArith Qabs Lia.
From stdpp Require Import base gmap strings list relations.
From S2P Require Import Prelude PyStr World Capture Scrub Batch.

Local Open Scope string_scope.

Module Gui.
Import World Capture Scrub.

(** ** [float(bitrate)] and [set_target_bandwidth]

    [float(s)] (line 46) strips the whitespace around [s] and reads
    [[sign] (digitpart ["."] | [digitpart] "." digitpart) [exponent]]
    or [[sign] (inf | infinity | nan)] in any case, where a
    [digitpart] is digits with single underscores between them.  The
    literal's exact value is a rational; the double Python makes of it
    is compared with the model's bandwidths by [float_bandwidth].
    Strings are byte strings: non-ASCII digits and spaces are not
    read. *)

Definition digit_val (c : ascii) : option Z :=
  let n := nat_of_ascii c in
  if (48 <=? n)%nat && (n <=? 57)%nat then Some (Z.of_nat (n - 48)) else None.

(** The rest of a [digitpart] after its first digit: the value [m] and
    count [n] of the digits read, and what follows. *)
Fixpoint digits_rest (s : string) (m : Z) (n : nat) : Z * nat * string :=
  match s with
  | String c r =>
      match digit_val c with
      | Some d => digits_rest r (m * 10 + d)%Z (S n)
      | None =>
          match c, r with
          | "_"%char, String c' r' =>
              match digit_val c' with
              | Some d => digits_rest r' (m * 10 + d)%Z (S n)
              | None => (m, n, s)
              end
          | _, _ => (m, n, s)
          end
      end
  | EmptyString => (m, n, s)
  end.

Definition digitpart (s : string) : option (Z * nat * string) :=
  match s with
  | String c r => d ← digit_val c; Some (digits_rest r d 1)
  | EmptyString => None
  end.

(** [number]: the digits as one integer [m] and the count [k] of
    digits after the point (the value is [m / 10^k]), and the rest. *)
Definition number (s : string) : option (Z * nat * string) :=
  match digitpart s with
  | Some (m, _, String "." r) =>
      match digitpart r with
      | Some (f, k, rest) => Some (m * 10 ^ Z.of_nat k + f, k, rest)%Z
      | None => Some (m, 0, r)
      end
  | Some (m, _, rest) => Some (m, 0, rest)
  | None =>
      match s with
      | String "." r => digitpart r
      | _ => None
      end
  end.

(** [exponent], which must end the literal; [0] when there is none. *)
Definition exponent (s : string) : option Z :=
  match s with
  | EmptyString => Some 0%Z
  | String e r =>
      if Ascii.eqb e "e" || Ascii.eqb e "E" then
        let '(sg, u) := match r with
                        | String "-" u => ((-1)%Z, u)
                        | String "+" u => (1%Z, u)
                        | _ => (1%Z, r)
                        end in
        match digitpart u with
        | Some (x, _, EmptyString) => Some (sg * x)%Z
        | _ => None
        end
      else None
  end.

(** The exact value of an unsigned finite literal. *)
Definition float_literal (s : string) : option Q :=
  match number s with
  | Some (m, k, rest) =>
      x ← exponent rest; Some (inject_Z m * Qpower (inject_Z 10) (x - Z.of_nat k)%Z)%Q
  | None => None
  end.

(** Python's whitespace for [float]: [\t \n \v \f \r], the separators
    [\x1c]-[\x1f] and the space. *)
Definition is_space (c : ascii) : bool :=
  bool_decide (nat_of_ascii c ∈ [32; 9; 10; 11; 12; 13; 28; 29; 30; 31]%nat).

Fixpoint lstrip (s : string) : string :=
  match s with
  | String c r => if is_space c then lstrip r else s
  | EmptyString => EmptyString
  end.

Fixpoint rstrip (s : string) : string :=
  match s with
  | String c r =>
      let r' := rstrip r in
      if is_space c && String.eqb r' EmptyString then EmptyString else String c r'
  | EmptyString => EmptyString
  end.

(** [float(s)]: [Ok (Some q)] for a finite literal of value [q],
    [Ok None] for an infinity or a NaN, [ValueError] otherwise. *)
Definition py_float (s : string) : outcome (option Q) :=
  let t := rstrip (lstrip s) in
  let '(neg, u) := match t with
                   | String "-" u => (true, u)
                   | String "+" u => (false, u)
                   | _ => (false, t)
                   end in
  if bool_decide (PyStr.lower u ∈ ["inf"; "infinity"; "nan"]) then Ok None
  else match float_literal u with
       | Some q => Ok (Some (if neg then Qopp q else q))
       | None => Raise (ValueError ("could not convert string to float: '" ^^ s ^^ "'"))
       end.

(** Half the spacing of the doubles of the binade of [k]. *)
Definition half_ulp (k : Z) : Q := Qpower (inject_Z 2) (Z.log2 k - 53)%Z.

(** Whether the double nearest to [q] is the bandwidth of [t] tenths of
    kbps.  For the model's bandwidths, 3, 6, 12 and 24, a whole number
    of kbps none of which is a power of two, the doubles around [k] are
    evenly spaced and [k]'s last mantissa bit is 0, so round-to-nearest-
    even maps exactly the closed interval of half a spacing onto [k]. *)
Definition rounds_to (q : Q) (t : Z) : bool :=
  let k := (t / 10)%Z in Qle_bool (Qabs (q - inject_Z k)%Q) (half_ulp k).

(** [bandwidth in self.target_bandwidths] for [float(bitrate)] of value
    [q]: the bandwidth it equals, if any. *)
Definition float_bandwidth (q : Q) : option Z := List.find (rounds_to q) MODEL_BANDWIDTHS.

(** [model.set_target_bandwidth(float(bitrate))] of line 46 as a
    value: the bandwidth the field selects, [None] when the number is
    none of the model's, [ValueError] when it is no number. *)
Definition bitrate_bandwidth (b : string) : outcome (option Z) :=
  match py_float b with
  | Ok x => Ok (x ≫= float_bandwidth)
  | Raise e => Raise e
  | Hang => Hang
  end.

(** ** The application's state *)

(** The iterator of [for i, f_path in enumerate(self.files)]: the list
    object, the next index, and [total = len(self.files)] taken at the
    start. *)
Record iter := mkIter { it_obj : nat; it_index : nat; it_total : nat }.

(** The worker thread: not running, started but before its first line,
    after [total = len(self.files)] (line 142) but before
    [enumerate(self.files)] (line 143), or in the loop. *)
Inductive thread := Idle | Spawned | Counted (total : nat) | Looping (it : iter).

Record app := mkApp {
  heap : gmap nat (list string);
  next_obj : nat;
  files : nat;
  file_list : list string;
  processing : bool;
  start_enabled : bool;
  device_var : string;
  bitrate_var : string;
  progress : Q;
  dialogs : list string;
  worker : thread;
  world : World.world
}.

(** The list [self.files] is bound to. *)
Definition cur_files (s : app) : list string := default [] (heap s !! files s).

(** [__init__] (lines 67-75) with the widgets' initial values:
    [self.files = []], [device_var = "default"], [bitrate_var = "12.0"]. *)
Definition init_app (w : World.world) : app :=
  mkApp {[0 := []]} 1 0 [] false true "default" "12.0" 0 [] Idle w.

(** ** The user's actions *)

(** One name of [add_files] (lines 117-120). *)
Definition add_one (s : app) (f : string) : app :=
  if bool_decide (f ∈ cur_files s) then s
  else mkApp (<[files s := (cur_files s ++ [f])%list]> (heap s)) (next_obj s) (files s)
             (file_list s ++ [PyStr.basename f])%list (processing s) (start_enabled s)
             (device_var s) (bitrate_var s) (progress s) (dialogs s) (worker s) (world s).

(** [add_files] (lines 115-120) with the names [sel] chosen in the
    dialog. *)
Definition add_files (sel : list string) (s : app) : app := fold_left add_one sel s.

(** [clear_files] (lines 122-124): [self.files] names a new empty list;
    the old list object is left to whoever still refers to it. *)
Definition clear_files (s : app) : app :=
  mkApp (<[next_obj s := []]> (heap s)) (S (next_obj s)) (next_obj s) []
        (processing s) (start_enabled s) (device_var s) (bitrate_var s)
        (progress s) (dialogs s) (worker s) (world s).

(** [start_processing] (lines 130-139). *)
Definition start_processing (s : app) : app :=
  if bool_decide (cur_files s = []) then
    mkApp (heap s) (next_obj s) (files s) (file_list s) (processing s) (start_enabled s)
          (device_var s) (bitrate_var s) (progress s)
          (dialogs s ++ ["No Files: Please add some audio files first."])%list (worker s) (world s)
  else if processing s then s
  else mkApp (heap s) (next_obj s) (files s) (file_list s) true false
             (device_var s) (bitrate_var s) (progress s) (dialogs s)
             Spawned (world s).

(** Typing in the device or bitrate combo box. *)
Definition set_vars (dev bitrate : string) (s : app) : app :=
  mkApp (heap s) (next_obj s) (files s) (file_list s) (processing s) (start_enabled s)
        dev bitrate (progress s) (dialogs s) (worker s) (world s).

(** ** The worker *)

Section Worker.
Context `{Externals}.

(** [neural_scrub(input_wav, output_wav, bitrate, status_callback)]
    (lines 43-62): [float(bitrate)] is evaluated after the model load;
    [set_target_bandwidth] then accepts it only when it equals one of
    the model's bandwidths, and [scrub_body] runs with that bandwidth. *)
Definition gui_neural_scrub (input output bitrate : string) : W unit :=
  print ("Neural scrubbing " ^^ PyStr.basename input ^^ "...") ;;
  load_model ;;
  x <- lift_outcome (py_float bitrate) ;;
  match x ≫= float_bandwidth with
  | Some bw => scrub_body input output bw
  | None => raise (bandwidth_error 0)
  end.

(** The [except Exception as e] of [process_loop] (lines 155-157). *)
Definition gui_handler (f : string) (e : exn) : W unit :=
  print ("Error processing " ^^ PyStr.basename f ^^ ": " ^^ exn_message e).

(** The [try] body of [process_loop] after the progress update, and
    its handler (lines 146-157): no promotion of the temporary file on
    failure. *)
Definition gui_job (fuel : nat) (dev bitrate f : string) : W unit :=
  try_except
    (gui_rerecord fuel f (PyStr.gui_temp_path f) dev ;;
     gui_neural_scrub (PyStr.gui_temp_path f) (PyStr.gui_final_path f) bitrate ;;
     b <- path_exists (PyStr.gui_temp_path f) ;;
     if b then os_remove (PyStr.gui_temp_path f) else ret tt)
    (gui_handler f).

(** [(i / total) * 100] (line 145), the first statement of the [try]:
    Python's true division raises [ZeroDivisionError] when [total] is
    0, which happens when the list was empty as the thread started and
    an entry was added before the loop's first step. *)
Definition progress_pct (i total : nat) : Q :=
  (inject_Z (Z.of_nat i) / inject_Z (Z.of_nat total)) * 100.

Definition progress_value (i total : nat) : outcome Q :=
  if Nat.eqb total 0 then Raise (ZeroDivisionError "division by zero")
  else Ok (progress_pct i total).

(** The name the iterator yields next, if the list still has one. *)
Definition next_item (s : app) : option string :=
  match worker s with
  | Looping it => heap s !! it_obj it ≫= fun l => l !! it_index it
  | _ => None
  end.

(** One step of the worker thread running [process_loop] (lines
    141-163): line 142, line 143, one iteration of the loop (the
    progress update and the file's job, which reads the device and
    bitrate fields at its start), or, when the list object is
    exhausted, the end of the loop.  [None] when the worker is idle or
    the job never returns. *)
Definition worker_step (fuel : nat) (s : app) : option app :=
  match worker s with
  | Idle => None
  | Spawned =>
      Some (mkApp (heap s) (next_obj s) (files s) (file_list s) (processing s)
                  (start_enabled s) (device_var s) (bitrate_var s) (progress s) (dialogs s)
                  (Counted (length (cur_files s))) (world s))
  | Counted total =>
      Some (mkApp (heap s) (next_obj s) (files s) (file_list s) (processing s)
                  (start_enabled s) (device_var s) (bitrate_var s) (progress s) (dialogs s)
                  (Looping (mkIter (files s) 0 total)) (world s))
  | Looping it =>
      match heap s !! it_obj it ≫= fun l => l !! it_index it with
      | Some f =>
          let next := Looping (mkIter (it_obj it) (S (it_index it)) (it_total it)) in
          match progress_value (it_index it) (it_total it) with
          | Ok pct =>
              match gui_job fuel (device_var s) (bitrate_var s) f (world s) with
              | (Hang, _) => None
              | (_, w') =>
                  Some (mkApp (heap s) (next_obj s) (files s) (file_list s) (processing s)
                              (start_enabled s) (device_var s) (bitrate_var s) pct
                              (dialogs s) next w')
              end
          | _ =>
              Some (mkApp (heap s) (next_obj s) (files s) (file_list s) (processing s)
                          (start_enabled s) (device_var s) (bitrate_var s) (progress s)
                          (dialogs s) next
                          (snd (gui_handler f (ZeroDivisionError "division by zero") (world s))))
          end
      | None =>
          Some (mkApp (heap s) (next_obj s) (files s) (file_list s) false true
                      (device_var s) (bitrate_var s) 100
                      (dialogs s ++ ["Done: Processing complete!"])%list Idle
                      (snd (print "All files processed!" (world s))))
      end
  end.

(** The GUI's transitions: the user's actions on the Tk thread
    interleaved with the worker's steps.  The Start button can be
    clicked only while it is enabled. *)
Inductive gui_step (fuel : nat) : app -> app -> Prop :=
  | step_add_files sel s : gui_step fuel s (add_files sel s)
  | step_clear_files s : gui_step fuel s (clear_files s)
  | step_start s : start_enabled s = true -> gui_step fuel s (start_processing s)
  | step_set_vars dev b s : gui_step fuel s (set_vars dev b s)
  | step_worker s s' : worker_step fuel s = Some s' -> gui_step fuel s s'.
End Worker.


(** ** The state invariant *)

(** What [add_files] leaves alone. *)
Definition add_frame (s s' : app) : Prop :=
  next_obj s' = next_obj s /\ files s' = files s /\ processing s' = processing s /\
  start_enabled s' = start_enabled s /\ worker s' = worker s /\
  forall o, o <> files s -> heap s' !! o = heap s !! o.

#[local] Instance add_frame_preorder : PreOrder add_frame.
Proof.
  split; [by repeat split|].
  intros s1 s2 s3 (?&?&?&?&?&H12) (?&?&?&?&?&H23).
  split_and!; try congruence. intros o Ho. rewrite H23 by congruence. by apply H12.
Qed.

Lemma add_one_frame s f : add_frame s (add_one s f).
Proof.
  unfold add_one. repeat case_match; try reflexivity.
  split_and!; try done. intros o Ho. by apply lookup_insert_ne.
Qed.

Lemma add_one_cur_files s f :
  cur_files (add_one s f) =
    if bool_decide (f ∈ cur_files s) then cur_files s else (cur_files s ++ [f])%list.
Proof.
  unfold add_one. case_bool_decide; [done|].
  unfold cur_files at 1. simpl. by rewrite lookup_insert_eq.
Qed.

Lemma add_files_frame sel s : add_frame s (add_files sel s).
Proof.
  revert s. induction sel as [|f sel IH]; intros s; [reflexivity|].
  simpl. etransitivity; [apply add_one_frame|apply IH].
Qed.

Lemma add_files_prefix sel s : cur_files s `prefix_of` cur_files (add_files sel s).
Proof.
  revert s. induction sel as [|f sel IH]; intros s; [done|].
  simpl. etransitivity; [|apply IH]. rewrite add_one_cur_files.
  case_bool_decide; [done|by apply prefix_app_r].
Qed.

(** [self.files] names an allocated list, which has no duplicates,
    and the list box shows the base name of each of its entries, in
    order. *)
Definition lists_ok (s : app) : Prop :=
  is_Some (heap s !! files s) /\ NoDup (cur_files s) /\
  file_list s = map PyStr.basename (cur_files s).

Lemma add_one_lists s f : lists_ok s -> lists_ok (add_one s f).
Proof.
  intros (Hh & Hnd & Hfl). unfold lists_ok. rewrite add_one_cur_files.
  unfold add_one. case_bool_decide as Hin; [done|]. simpl.
  rewrite lookup_insert_eq, map_app, <- Hfl. split_and!; [done| |done].
  apply NoDup_app. split_and!; [done| |by apply NoDup_singleton].
  intros x Hx ->%list_elem_of_singleton. contradiction.
Qed.

Lemma add_files_lists sel s : lists_ok s -> lists_ok (add_files sel s).
Proof.
  revert s. induction sel as [|f sel IH]; intros s Hs; [done|].
  simpl. by apply IH, add_one_lists.
Qed.

(** The length of the list object [o]. *)
Definition obj_len (s : app) (o : nat) : nat := length (default [] (heap s !! o)).

Lemma add_files_obj_len sel s o : obj_len s o <= obj_len (add_files sel s) o.
Proof.
  destruct (decide (o = files s)) as [->|Hne].
  - destruct (add_files_frame sel s) as (_ & Hf' & _).
    pose proof (prefix_length _ _ (add_files_prefix sel s)) as Hp.
    unfold obj_len. unfold cur_files in Hp. by rewrite <- Hf' at 2.
  - destruct (add_files_frame sel s) as (_ & _ & _ & _ & _ & Hh).
    unfold obj_len. by rewrite Hh.
Qed.

Lemma item_lt s o i f : (heap s !! o ≫= fun l => l !! i) = Some f -> i < obj_len s o.
Proof.
  unfold obj_len. destruct (heap s !! o) as [l|]; simpl; [|done].
  intros Hf. by eapply lookup_lt_Some.
Qed.

Definition app_inv (s : app) : Prop :=
  lists_ok s /\ files s < next_obj s /\
  start_enabled s = negb (processing s) /\
  (processing s = false <-> worker s = Idle) /\
  (forall it, worker s = Looping it -> it_obj it < next_obj s) /\
  (forall it, worker s = Looping it -> it_index it <= obj_len s (it_obj it)).

Lemma init_app_inv w : app_inv (init_app w).
Proof.
  split_and!; try done.
  - split_and!; [by eexists|constructor|done].
  - simpl. lia.
Qed.

Lemma add_files_inv sel s : app_inv s -> app_inv (add_files sel s).
Proof.
  intros (Hl & Hf & He & Hp & Hw & Ht).
  destruct (add_files_frame sel s) as (Hn' & Hf' & Hp' & He' & Hw' & _).
  split_and!; [by apply add_files_lists|congruence|congruence|by rewrite Hp', Hw'| |].
  - intros it. rewrite Hw', Hn'. apply Hw.
  - intros it. rewrite Hw'. intros Hit.
    pose proof (add_files_obj_len sel s (it_obj it)). specialize (Ht it Hit). lia.
Qed.

Lemma clear_files_inv s : app_inv s -> app_inv (clear_files s).
Proof.
  intros (Hl & Hf & He & Hp & Hw & Ht). unfold clear_files, app_inv, lists_ok, obj_len, cur_files; simpl.
  rewrite lookup_insert_eq. split_and!; try done; [constructor|lia| |].
  - intros it Hit. specialize (Hw it Hit). lia.
  - intros it Hit. rewrite lookup_insert_ne by (specialize (Hw it Hit); lia). by apply Ht.
Qed.

Lemma start_processing_inv s : app_inv s -> app_inv (start_processing s).
Proof.
  intros Hs. unfold start_processing. case_bool_decide; [by destruct Hs|].
  destruct (processing s) eqn:Hp; [done|].
  destruct Hs as (Hl & Hf & He & Hpw & Hw & Ht). split_and!; try done.
Qed.

Lemma set_vars_inv dev b s : app_inv s -> app_inv (set_vars dev b s).
Proof. by intros ?. Qed.

Section Reachable.
Context `{Externals}.

Lemma worker_step_inv fuel s s' : app_inv s -> worker_step fuel s = Some s' -> app_inv s'.
Proof.
  intros (Hl & Hf & He & Hp & Hw & Ht). unfold worker_step.
  destruct (worker s) as [| |total|it] eqn:Hws; [done| | |].
  - intros [= <-]. split_and!; try done; simpl; [|done..].
    split; [intros Hf0; by apply Hp in Hf0|done].
  - intros [= <-]. split_and!; try done; simpl.
    + split; [intros Hf0; by apply Hp in Hf0|done].
    + by intros it [= <-].
    + intros it [= <-]. simpl. lia.
  - destruct (heap s !! it_obj it ≫= _) as [f|] eqn:Hitem; [|intros [= <-]; by split_and!].
    pose proof (item_lt _ _ _ _ Hitem) as Hlt.
    cbv zeta. destruct (progress_value _ _); [destruct (gui_job _ _ _ _ _) as [[]]| |];
      try done; intros [= <-];
      (split_and!; try done; simpl;
       [split; [intros Hf0; by apply Hp in Hf0|done]
       |intros it' [= <-]; simpl; by apply Hw
       |intros it' [= <-]; simpl; unfold obj_len in *; simpl; lia]).
Qed.

Lemma gui_step_inv fuel s s' : app_inv s -> gui_step fuel s s' -> app_inv s'.
Proof.
  intros Hs Hst. revert Hs. destruct Hst; intros Hs; [by apply add_files_inv|by apply clear_files_inv|
                 by apply start_processing_inv|by apply set_vars_inv|
                 by eapply worker_step_inv].
Qed.

Lemma reachable_inv fuel w s : rtc (gui_step fuel) (init_app w) s -> app_inv s.
Proof.
  intros Hr. remember (init_app w) as s0 eqn:Hs0.
  assert (Hi : app_inv s0) by (subst; apply init_app_inv). clear Hs0.
  induction Hr; [done|]. eauto using gui_step_inv.
Qed.
End Reachable.

(** ** One GUI job *)

Lemma gui_paths (base ext : string) :
  String.index 0 "." ext = None ->
  PyStr.gui_temp_path (base ^^ "." ^^ ext) = base ^^ "_rerecord.wav" /\
  PyStr.gui_final_path (base ^^ "." ^^ ext) = base ^^ "_clean.wav".
Proof.
  intros Hext. unfold PyStr.gui_temp_path, PyStr.gui_final_path, PyStr.rsplit1_head.
  change ("." ^^ ext) with (String "." ext).
  by rewrite (PyStr.before_last_stem "." base ext) by (by apply PyStr.before_last_none).
Qed.

Lemma gui_names_distinct (base ext : string) :
  base ^^ "." ^^ ext <> base ^^ "_rerecord.wav" /\
  base ^^ "_rerecord.wav" <> base ^^ "_clean.wav".
Proof. split; intros Heq%PyStr.append_cancel_l; discriminate. Qed.

Lemma bitrate_bandwidth_not_hang b : bitrate_bandwidth b <> Hang.
Proof. unfold bitrate_bandwidth, py_float. by repeat case_match. Qed.

Lemma bitrate_bandwidth_no_exit b e : bitrate_bandwidth b = Raise e -> is_Exception e = true.
Proof. unfold bitrate_bandwidth, py_float. repeat case_match; intros; by simplify_eq. Qed.

Section Job.
Context `{Externals}.

(** The GUI's [neural_scrub]: the model is loaded before [float] reads
    the bitrate. *)
Lemma gui_neural_scrub_run input output b w :
  gui_neural_scrub input output b w =
    let w1 := mkWorld (fs w) (clock w) (S (model_loads w))
                (log w ++ ["Neural scrubbing " ^^ PyStr.basename input ^^ "..."]) in
    match bitrate_bandwidth b with
    | Ok (Some bw) => scrub_body input output bw w1
    | Ok None => (Raise (bandwidth_error 0), w1)
    | Raise e => (Raise e, w1)
    | Hang => (Hang, w1)
    end.
Proof.
  unfold gui_neural_scrub, bitrate_bandwidth. cbn.
  destruct (py_float b) as [[q|]| |]; [|reflexivity..].
  change (Some q ≫= float_bandwidth) with (float_bandwidth q). by destruct (float_bandwidth q).
Qed.

(** C20: one GUI job on [base.ext], when [ffmpeg] decodes the input to
    [fr] and the capture loop can end ([Capture.capture_ends]: the
    decoded input fits in the 64 KiB pipe and the fuel outlasts
    [ffmpeg], or the device does not open, for an input of any length;
    in the remaining case the job never returns, C2): the job returns
    (its [except] reports any error), loads the model once, and
    - when [float] of the bitrate field equals a bandwidth of the model
      (["12.0"], ["1.2e1"], [" +24 "]) and the scrub succeeds,
      [base_clean.wav] holds the scrubbed audio and [base_rerecord.wav]
      is gone;
    - otherwise (a field that is no number, such as ["abc"], or no
      bandwidth of the model, such as ["1.5"] or ["0"]) no
      [base_clean.wav] is written and the direct conversion is left in
      [base_rerecord.wav].
    No other file changes. *)
Theorem gui_job_spec fuel dev bitrate base ext fr w :
  String.index 0 "." ext = None ->
  decoded w (base ^^ "." ^^ ext) = Some fr ->
  capture_ends fuel dev (pcm_bytes (Some fr)) ->
  exists w', gui_job fuel dev bitrate (base ^^ "." ^^ ext) w = (Ok tt, w') /\
    model_loads w' = S (model_loads w) /\
    fs w' = match bitrate_bandwidth bitrate with
            | Ok (Some bw) =>
                match scrub_wav bw (direct_wav fr) with
                | Ok v' => <[base ^^ "_clean.wav" := Wav v']> (delete (base ^^ "_rerecord.wav") (fs w))
                | _ => <[base ^^ "_rerecord.wav" := Wav (direct_wav fr)]> (fs w)
                end
            | _ => <[base ^^ "_rerecord.wav" := Wav (direct_wav fr)]> (fs w)
            end.
Proof.
  intros Hext Hdec Hc.
  destruct (gui_paths base ext Hext) as [Ht Hf]. destruct (gui_names_distinct base ext) as [Hit Htf].
  unfold gui_job. rewrite Ht, Hf. unfold gui_rerecord.
  destruct (rerecord_core_run fuel (base ^^ "." ^^ ext) (base ^^ "_rerecord.wav") dev
              ("Re-recording " ^^ PyStr.basename (base ^^ "." ^^ ext) ^^ "...")
              (fun _ => ["Loopback failed, falling back to direct conversion..."]) w Hit)
    as (w2 & E1 & Hfs2 & Hm2); [by rewrite Hdec|].
  rewrite Hdec in E1, Hfs2.
  unfold try_except. cbv beta. rewrite (bind_ok _ _ _ _ _ E1).
  pose proof (gui_neural_scrub_run (base ^^ "_rerecord.wav") (base ^^ "_clean.wav") bitrate w2)
    as E2. cbv zeta in E2.
  set (w3 := mkWorld (fs w2) (clock w2) (S (model_loads w2))
                     (log w2 ++ ["Neural scrubbing " ^^ PyStr.basename (base ^^ "_rerecord.wav") ^^ "..."]))
    in E2.
  assert (Hfs3 : fs w3 = <[base ^^ "_rerecord.wav" := Wav (direct_wav fr)]> (fs w)) by exact Hfs2.
  assert (Hm3 : model_loads w3 = S (model_loads w)) by (simpl; by rewrite Hm2).
  destruct (bitrate_bandwidth bitrate) as [[bw|]|e|] eqn:Hb.
  - assert (Hin : fs w3 !! (base ^^ "_rerecord.wav") = Some (Wav (direct_wav fr)))
      by (rewrite Hfs3; apply lookup_insert_eq).
    rewrite (scrub_body_spec _ _ bw _ w3 Hin (Batch.clean_wav_suffix base)) in E2.
    destruct (scrub_wav bw (direct_wav fr)) as [v'|e|] eqn:Hs.
    + rewrite (bind_ok _ _ _ _ _ E2), (bind_ok _ _ _ _ _ (Batch.path_exists_run _ _)).
      cbn [fs set_fs]. rewrite lookup_insert_ne, Hin by done.
      rewrite bool_decide_true by done. unfold os_remove. cbn [fs set_fs].
      rewrite lookup_insert_ne, Hin by done. eexists. split; [done|]. split; [done|].
      cbn [fs set_fs]. rewrite delete_insert_ne, Hfs3, delete_insert_eq by done. done.
    + rewrite (bind_raise _ _ _ _ _ E2), (Batch.scrub_wav_no_exit _ _ _ Hs). by eexists.
    + by destruct (scrub_wav_not_hang bw (direct_wav fr)).
  - rewrite (bind_raise _ _ _ _ _ E2). by eexists.
  - rewrite (bind_raise _ _ _ _ _ E2), (bitrate_bandwidth_no_exit _ _ Hb). by eexists.
  - by destruct (bitrate_bandwidth_not_hang bitrate).
Qed.
End Job.

(** ** The interleaving of the user's actions with the batch *)

Section Interleaving.
Context `{Externals}.

(** C16: in every state the GUI reaches, the file list has no
    duplicates and the list box shows the base name of each entry in
    order; the Start button is enabled exactly when no batch runs; a
    worker exists exactly while [processing] is set, and [Start] during
    a batch starts no second one. *)
Theorem gui_state_invariant fuel w s :
  rtc (gui_step fuel) (init_app w) s ->
  NoDup (cur_files s) /\ file_list s = map PyStr.basename (cur_files s) /\
  start_enabled s = negb (processing s) /\
  (processing s = false <-> worker s = Idle) /\
  (processing s = true -> worker (start_processing s) = worker s).
Proof.
  intros Hr. destruct (reachable_inv fuel w s Hr) as ((_ & Hnd & Hfl) & _ & He & Hp & _).
  split_and!; try done. intros Hpt. unfold start_processing.
  case_bool_decide; [done|]. by rewrite Hpt.
Qed.

(** C18: [clear_files] does not stop a running batch: it empties the
    list box and rebinds [self.files] to a new list, while the worker
    goes on with the next entry of the list it started on. *)
Theorem clear_files_keeps_batch fuel w s :
  rtc (gui_step fuel) (init_app w) s ->
  next_item (clear_files s) = next_item s /\ worker (clear_files s) = worker s /\
  cur_files (clear_files s) = [] /\ file_list (clear_files s) = [].
Proof.
  intros Hr. destruct (reachable_inv fuel w s Hr) as (_ & _ & _ & _ & Hw & _).
  unfold next_item, cur_files, clear_files; simpl. rewrite lookup_insert_eq.
  split_and!; try done.
  destruct (worker s) as [| | |it] eqn:Hws; try done.
  rewrite lookup_insert_ne; [done|]. specialize (Hw it eq_refl). lia.
Qed.

(** C19: [add_files] during a batch appends to the very list the loop
    iterates over ([enumerate(self.files)] holds the list, not a copy):
    a new name [f] becomes the entry at position [len(self.files)] of
    the batch's list, a position the loop has not yet passed, so the
    running batch will process it. *)
Theorem add_files_extends_batch fuel w s it f :
  rtc (gui_step fuel) (init_app w) s ->
  worker s = Looping it -> it_obj it = files s -> f ∉ cur_files s ->
  (heap (add_files [f] s) !! it_obj it ≫= fun l => l !! length (cur_files s)) = Some f /\
  it_index it <= length (cur_files s).
Proof.
  intros Hr Hws Ho Hf. destruct (reachable_inv fuel w s Hr) as (_ & _ & _ & _ & _ & Hi).
  split.
  - simpl. unfold add_one. rewrite bool_decide_false by done.
    simpl. rewrite Ho, lookup_insert_eq. simpl. by apply list_lookup_middle.
  - specialize (Hi it Hws). unfold obj_len in Hi. by rewrite Ho in Hi.
Qed.
End Interleaving.

(** ** Concrete runs *)

Definition demo_added : app := add_files ["a.mp3"] (init_app demo_world).
Definition demo_started : app := start_processing demo_added.
Definition demo_step (s : app) : app := default s (@worker_step demo_externals 1000 s).
(** The worker has run lines 142 and 143: it iterates over ["a.mp3"]. *)
Definition demo_running : app := demo_step (demo_step demo_started).

(** A worker step that a computation shows to be defined. *)
Lemma step_worker_default `{Externals} fuel s :
  bool_decide (is_Some (worker_step fuel s)) = true ->
  gui_step fuel s (default s (worker_step fuel s)).
Proof. destruct (worker_step fuel s) eqn:E; [intros _; by constructor|intros Hb%bool_decide_eq_true_1; by destruct Hb]. Qed.

Lemma demo_running_reachable :
  rtc (@gui_step demo_externals 1000) (init_app demo_world) demo_running.
Proof.
  unfold demo_running, demo_step, demo_started, demo_added.
  eapply rtc_l; [apply (step_add_files _ ["a.mp3"])|].
  eapply rtc_l; [apply step_start; vm_compute; reflexivity|].
  do 2 (eapply rtc_l; [apply step_worker_default; vm_compute; reflexivity|]). apply rtc_refl.
Qed.

(** C17: the progress bar can be set above 100%: two names added
    while a one-file batch runs are processed with [i / total] = 1 and
    2, i.e. at 100% and 200%. *)
Theorem progress_exceeds_100 :
  exists s, rtc (@gui_step demo_externals 1000) (init_app demo_world) s /\ (100 < progress s)%Q.
Proof.
  exists (demo_step (demo_step (demo_step (add_files ["c.mp3"; "x.mp3"] demo_running)))).
  split; [|vm_compute; reflexivity].
  eapply rtc_trans; [apply demo_running_reachable|]. unfold demo_step.
  eapply rtc_l; [apply (step_add_files _ ["c.mp3"; "x.mp3"])|].
  do 3 (eapply rtc_l; [apply step_worker_default; vm_compute; reflexivity|]).
  apply rtc_refl.
Qed.

(** C21: [total] can be 0 while the loop has an entry to process: the
    user clears the list after Start and before the worker's first line,
    then adds a file before its first iteration; [(i / total) * 100]
    raises [ZeroDivisionError] and the file is skipped with an error
    status. *)
Theorem progress_division_by_zero :
  exists s, rtc (@gui_step demo_externals 1000) (init_app demo_world) s /\
    last (log (world s)) = Some "Error processing a.mp3: division by zero" /\
    fs (world s) = fs demo_world.
Proof.
  exists (demo_step (demo_step (add_files ["a.mp3"] (demo_step (clear_files demo_started))))).
  split; [|vm_compute; split; reflexivity].
  unfold demo_step, demo_started, demo_added.
  eapply rtc_l; [apply (step_add_files _ ["a.mp3"])|].
  eapply rtc_l; [apply step_start; vm_compute; reflexivity|].
  eapply rtc_l; [apply step_clear_files|].
  eapply rtc_l; [apply step_worker_default; vm_compute; reflexivity|].
  eapply rtc_l; [apply (step_add_files _ ["a.mp3"])|].
  do 2 (eapply rtc_l; [apply step_worker_default; vm_compute; reflexivity|]).
  apply rtc_refl.
Qed.

Lemma gui_state_invariant_witness :
  NoDup (cur_files demo_running) /\
  file_list demo_running = map PyStr.basename (cur_files demo_running) /\
  start_enabled demo_running = negb (processing demo_running) /\
  (processing demo_running = false <-> worker demo_running = Idle) /\
  (processing demo_running = true -> worker (start_processing demo_running) = worker demo_running).
Proof. apply (@gui_state_invariant demo_externals 1000 demo_world), demo_running_reachable. Defined.

Lemma clear_files_keeps_batch_witness :
  next_item demo_running = Some "a.mp3" /\
  next_item (clear_files demo_running) = next_item demo_running /\
  worker (clear_files demo_running) = worker demo_running /\
  cur_files (clear_files demo_running) = [] /\ file_list (clear_files demo_running) = [].
Proof.
  split; [vm_compute; reflexivity|].
  apply (@clear_files_keeps_batch demo_externals 1000 demo_world), demo_running_reachable.
Defined.

Lemma add_files_extends_batch_witness :
  worker demo_running = Looping (mkIter 0 0 1) /\
  (heap (add_files ["c.mp3"] demo_running) !! 0 ≫= fun l => l !! length (cur_files demo_running))
    = Some "c.mp3" /\
  0 <= length (cur_files demo_running).
Proof.
  split; [vm_compute; reflexivity|].
  apply (@add_files_extends_batch demo_externals 1000 demo_world demo_running (mkIter 0 0 1)).
  - apply demo_running_reachable.
  - vm_compute. reflexivity.
  - vm_compute. reflexivity.
  - apply (bool_decide_eq_false_1 ("c.mp3" ∈ cur_files demo_running)). vm_compute. reflexivity.
Defined.

(** The field ["1.2e1"], which [float] reads as 12.0, selects the
    12 kbps bandwidth. *)
Lemma gui_job_spec_witness :
  @bitrate_bandwidth "1.2e1" = Ok (Some 120%Z) /\
  exists w', @gui_job demo_externals 1000 "default" "1.2e1" ("a" ^^ "." ^^ "mp3") demo_world
               = (Ok tt, w') /\
    model_loads w' = S (model_loads demo_world) /\
    fs w' = match bitrate_bandwidth "1.2e1" with
            | Ok (Some bw) =>
                match @scrub_wav demo_externals bw (direct_wav (repeat [1; 2]%Z 100)) with
                | Ok v' => <["a" ^^ "_clean.wav" := Wav v']> (delete ("a" ^^ "_rerecord.wav") (fs demo_world))
                | _ => <["a" ^^ "_rerecord.wav" := Wav (direct_wav (repeat [1; 2]%Z 100))]> (fs demo_world)
                end
            | _ => <["a" ^^ "_rerecord.wav" := Wav (direct_wav (repeat [1; 2]%Z 100))]> (fs demo_world)
            end.
Proof.
  split; [vm_compute; reflexivity|].
  apply (@gui_job_spec demo_externals 1000 "default" "1.2e1" "a" "mp3" (repeat [1; 2]%Z 100) demo_world).
  - reflexivity.
  - reflexivity.
  - left. split; [apply N.leb_le|apply Nat.ltb_lt]; vm_compute; reflexivity.
Defined.

End Gui.
